(** * Error decoding, classification and table-name validation of
      azure-data-tables ([azure/data/tables/_error.py])

    A shallow embedding of the error path of the tables client:
    [_decode_error], [_validate_tablename_error], [_process_table_error],
    [TableTransactionError._extract_index] and the [TableErrorCode]
    enumeration, followed by the properties proved about them.

    Conventions of the model.
    - A Python [str] is a [string]: a sequence of characters with code
      points below 256.
    - A Python call either returns or raises: [result A] is [Ok a] or
      [Raise e], and [x <- c ;; k] sequences calls the way statements
      follow each other in the source.
    - A Python [dict] is an association list in insertion order with one
      binding per key; [d[k] = v] is [dict_set].
    - Values that come out of [json.loads] are [json]; JSON numbers are
      modelled as integers.
    - Two facts about the interpreter are parameters of the model: [repr]
      of lists and dicts, and the limit on the digits of an integer
      literal. *)

From Stdlib Require Import ZArith String Ascii List Bool Lia Arith DecimalString
  DecimalPos.
Import ListNotations.
Open Scope list_scope.
Open Scope string_scope.

Set Warnings "-register-all".

(** ** Exceptions and the result of a call *)

Inductive exn :=
| AttributeError
| TypeError
| KeyError
| DecodeError
| ValueError (msg : string)
| OtherError (name : string).

Inductive result (A : Type) :=
| Ok (a : A)
| Raise (e : exn).

Arguments Ok {A} a.
Arguments Raise {A} e.

Definition bind {A B} (c : result A) (k : A -> result B) : result B :=
  match c with
  | Ok a => k a
  | Raise e => Raise e
  end.

Notation "x <- c ;; k" := (bind c (fun x => k))
  (at level 61, c at next level, right associativity).

Definition exn_eqb (a b : exn) : bool :=
  match a, b with
  | AttributeError, AttributeError => true
  | TypeError, TypeError => true
  | KeyError, KeyError => true
  | DecodeError, DecodeError => true
  | ValueError _, ValueError _ => true
  | OtherError n, OtherError m => String.eqb n m
  | _, _ => false
  end.

(** [try: c except E: h] for one exception class [E] ([ValueError]
    matches whatever its message). *)
Definition try_except {A} (c : result A) (E : exn) (h : result A) : result A :=
  match c with
  | Ok a => Ok a
  | Raise e => if exn_eqb e E then h else Raise e
  end.

(** [for x in xs: st = body st x], stopping at the first exception. *)
Fixpoint for_each {S X} (body : S -> X -> result S) (xs : list X) (st : S)
  : result S :=
  match xs with
  | [] => Ok st
  | x :: xs' => st' <- body st x ;; for_each body xs' st'
  end.

(** ** Strings *)

(** ["\n"] *)
Definition nl : string := String (ascii_of_nat 10) EmptyString.

Arguments nl : simpl never.

Definition chars (s : string) : list string :=
  map (fun c => String c EmptyString) (list_ascii_of_string s).

(** [needle in haystack] on two [str]. *)
Fixpoint str_in (needle haystack : string) : bool :=
  String.prefix needle haystack ||
  match haystack with
  | EmptyString => false
  | String _ rest => str_in needle rest
  end.

Definition in_range (lo hi : nat) (c : ascii) : bool :=
  let n := nat_of_ascii c in (lo <=? n)%nat && (n <=? hi)%nat.

(** [str.lower] on one character below U+0100: A-Z and the upper-case
    letters of Latin-1 (U+00C0..U+00DE without the multiplication sign)
    move up by 32. *)
Definition lower_char (c : ascii) : ascii :=
  let n := nat_of_ascii c in
  if in_range 65 90 c || (in_range 192 222 c && negb (n =? 215)%nat)
  then ascii_of_nat (n + 32) else c.

Fixpoint lower (s : string) : string :=
  match s with
  | EmptyString => EmptyString
  | String c rest => String (lower_char c) (lower rest)
  end.

(** [s.find(sub) != -1]. *)
Definition find_ne_minus1 (s sub : string) : bool := str_in sub s.

(** ** Values produced by [json.loads] *)

Inductive json :=
| JNull
| JBool (b : bool)
| JInt (n : Z)
| JStr (s : string)
| JArr (items : list json)
| JObj (fields : list (string * json)).

Fixpoint assoc {V} (k : string) (d : list (string * V)) : option V :=
  match d with
  | [] => None
  | (k', v) :: d' => if String.eqb k k' then Some v else assoc k d'
  end.

(** [d[k] = v]: overwrite in place when [k] is bound, append otherwise. *)
Fixpoint dict_set {V} (k : string) (v : V) (d : list (string * V))
  : list (string * V) :=
  match d with
  | [] => [(k, v)]
  | (k', v') :: d' =>
      if String.eqb k k' then (k', v) :: d' else (k', v') :: dict_set k v d'
  end.

(** [container[key]] for a [str] key. *)
Definition getitem (container : json) (key : string) : result json :=
  match container with
  | JObj fields =>
      match assoc key fields with
      | Some v => Ok v
      | None => Raise KeyError
      end
  | _ => Raise TypeError
  end.

(** The values a [for] loop over [v] yields. *)
Definition py_iter (v : json) : result (list json) :=
  match v with
  | JObj fields => Ok (map (fun kv => JStr (fst kv)) fields)
  | JArr items => Ok items
  | JStr s => Ok (map JStr (chars s))
  | _ => Raise TypeError
  end.

(** [bool(v)]. *)
Definition truthy (v : json) : bool :=
  match v with
  | JNull => false
  | JBool b => b
  | JInt n => negb (n =? 0)%Z
  | JStr s => negb (String.eqb s "")
  | JArr items => match items with [] => false | _ => true end
  | JObj fields => match fields with [] => false | _ => true end
  end.

(** [v == s] for a [str] literal [s]. *)
Definition eq_str (v : json) (s : string) : bool :=
  match v with
  | JStr t => String.eqb t s
  | _ => false
  end.

Definition string_of_Z (n : Z) : string :=
  NilEmpty.string_of_int (Z.to_int n).

(** ** XML element trees ([xml.etree.ElementTree.Element]) *)

Inductive Element :=
| mkElement (tag : string) (text : option string) (children : list Element).

Definition tag (e : Element) : string :=
  match e with mkElement t _ _ => t end.

Definition text (e : Element) : option string :=
  match e with mkElement _ t _ => t end.

Definition children (e : Element) : list Element :=
  match e with mkElement _ _ cs => cs end.

(** [Element.iter()]: the element itself, then every descendant, in
    document order. *)
Fixpoint iter (e : Element) : list Element :=
  match e with
  | mkElement _ _ cs => e :: flat_map iter cs
  end.

(** [bool(element)]: an element is true when it has children. *)
Definition element_truthy (e : Element) : bool :=
  match children e with [] => false | _ => true end.

(** ** The [TableErrorCode] enumeration *)

Inductive TableErrorCode :=
| account_already_exists
| account_being_created
| account_is_disabled
| authentication_failed
| authorization_failure
| no_authentication_information
| condition_headers_not_supported
| condition_not_met
| empty_metadata_key
| insufficient_account_permissions
| internal_error
| invalid_authentication_info
| invalid_header_value
| invalid_http_verb
| invalid_input
| invalid_md5
| invalid_metadata
| invalid_query_parameter_value
| invalid_range
| invalid_resource_name
| invalid_uri
| invalid_xml_document
| invalid_xml_node_value
| md5_mismatch
| metadata_too_large
| missing_content_length_header
| missing_required_query_parameter
| missing_required_header
| missing_required_xml_node
| multiple_condition_headers_not_supported
| operation_timed_out
| out_of_range_input
| out_of_range_query_parameter_value
| request_body_too_large
| resource_type_mismatch
| request_url_failed_to_parse
| resource_already_exists
| resource_not_found
| server_busy
| unsupported_header
| unsupported_xml_node
| unsupported_query_parameter
| unsupported_http_verb
| duplicate_properties_specified
| entity_not_found
| entity_already_exists
| entity_too_large
| host_information_not_present
| invalid_duplicate_row
| invalid_value_type
| json_format_not_supported
| method_not_allowed
| not_implemented
| properties_need_value
| property_name_invalid
| property_name_too_long
| property_value_too_large
| table_already_exists
| table_being_deleted
| table_not_found
| too_many_properties
| update_condition_not_satisfied
| x_method_incorrect_count
| x_method_incorrect_value
| x_method_not_using_post.

Definition value (c : TableErrorCode) : string :=
  match c with
  | account_already_exists => "AccountAlreadyExists"
  | account_being_created => "AccountBeingCreated"
  | account_is_disabled => "AccountIsDisabled"
  | authentication_failed => "AuthenticationFailed"
  | authorization_failure => "AuthorizationFailure"
  | no_authentication_information => "NoAuthenticationInformation"
  | condition_headers_not_supported => "ConditionHeadersNotSupported"
  | condition_not_met => "ConditionNotMet"
  | empty_metadata_key => "EmptyMetadataKey"
  | insufficient_account_permissions => "InsufficientAccountPermissions"
  | internal_error => "InternalError"
  | invalid_authentication_info => "InvalidAuthenticationInfo"
  | invalid_header_value => "InvalidHeaderValue"
  | invalid_http_verb => "InvalidHttpVerb"
  | invalid_input => "InvalidInput"
  | invalid_md5 => "InvalidMd5"
  | invalid_metadata => "InvalidMetadata"
  | invalid_query_parameter_value => "InvalidQueryParameterValue"
  | invalid_range => "InvalidRange"
  | invalid_resource_name => "InvalidResourceName"
  | invalid_uri => "InvalidUri"
  | invalid_xml_document => "InvalidXmlDocument"
  | invalid_xml_node_value => "InvalidXmlNodeValue"
  | md5_mismatch => "Md5Mismatch"
  | metadata_too_large => "MetadataTooLarge"
  | missing_content_length_header => "MissingContentLengthHeader"
  | missing_required_query_parameter => "MissingRequiredQueryParameter"
  | missing_required_header => "MissingRequiredHeader"
  | missing_required_xml_node => "MissingRequiredXmlNode"
  | multiple_condition_headers_not_supported =>
      "MultipleConditionHeadersNotSupported"
  | operation_timed_out => "OperationTimedOut"
  | out_of_range_input => "OutOfRangeInput"
  | out_of_range_query_parameter_value => "OutOfRangeQueryParameterValue"
  | request_body_too_large => "RequestBodyTooLarge"
  | resource_type_mismatch => "ResourceTypeMismatch"
  | request_url_failed_to_parse => "RequestUrlFailedToParse"
  | resource_already_exists => "ResourceAlreadyExists"
  | resource_not_found => "ResourceNotFound"
  | server_busy => "ServerBusy"
  | unsupported_header => "UnsupportedHeader"
  | unsupported_xml_node => "UnsupportedXmlNode"
  | unsupported_query_parameter => "UnsupportedQueryParameter"
  | unsupported_http_verb => "UnsupportedHttpVerb"
  | duplicate_properties_specified => "DuplicatePropertiesSpecified"
  | entity_not_found => "EntityNotFound"
  | entity_already_exists => "EntityAlreadyExists"
  | entity_too_large => "EntityTooLarge"
  | host_information_not_present => "HostInformationNotPresent"
  | invalid_duplicate_row => "InvalidDuplicateRow"
  | invalid_value_type => "InvalidValueType"
  | json_format_not_supported => "JsonFormatNotSupported"
  | method_not_allowed => "MethodNotAllowed"
  | not_implemented => "NotImplemented"
  | properties_need_value => "PropertiesNeedValue"
  | property_name_invalid => "PropertyNameInvalid"
  | property_name_too_long => "PropertyNameTooLong"
  | property_value_too_large => "PropertyValueTooLarge"
  | table_already_exists => "TableAlreadyExists"
  | table_being_deleted => "TableBeingDeleted"
  | table_not_found => "TableNotFound"
  | too_many_properties => "TooManyProperties"
  | update_condition_not_satisfied => "UpdateConditionNotSatisfied"
  | x_method_incorrect_count => "XMethodIncorrectCount"
  | x_method_incorrect_value => "XMethodIncorrectValue"
  | x_method_not_using_post => "XMethodNotUsingPost"
  end.

(** The members in definition order. *)
Definition members : list TableErrorCode :=
  [ account_already_exists; account_being_created; account_is_disabled;
    authentication_failed; authorization_failure;
    no_authentication_information; condition_headers_not_supported;
    condition_not_met; empty_metadata_key; insufficient_account_permissions;
    internal_error; invalid_authentication_info; invalid_header_value;
    invalid_http_verb; invalid_input; invalid_md5; invalid_metadata;
    invalid_query_parameter_value; invalid_range; invalid_resource_name;
    invalid_uri; invalid_xml_document; invalid_xml_node_value; md5_mismatch;
    metadata_too_large; missing_content_length_header;
    missing_required_query_parameter; missing_required_header;
    missing_required_xml_node; multiple_condition_headers_not_supported;
    operation_timed_out; out_of_range_input;
    out_of_range_query_parameter_value; request_body_too_large;
    resource_type_mismatch; request_url_failed_to_parse;
    resource_already_exists; resource_not_found; server_busy;
    unsupported_header; unsupported_xml_node; unsupported_query_parameter;
    unsupported_http_verb; duplicate_properties_specified; entity_not_found;
    entity_already_exists; entity_too_large; host_information_not_present;
    invalid_duplicate_row; invalid_value_type; json_format_not_supported;
    method_not_allowed; not_implemented; properties_need_value;
    property_name_invalid; property_name_too_long; property_value_too_large;
    table_already_exists; table_being_deleted; table_not_found;
    too_many_properties; update_condition_not_satisfied;
    x_method_incorrect_count; x_method_incorrect_value;
    x_method_not_using_post ].

(** [TableErrorCode(v)]: the member whose value is [v], [ValueError] when
    there is none (the text of the exception is not modelled). *)
Definition TableErrorCode_call (v : json) : result TableErrorCode :=
  match find (fun c => eq_str v (value c)) members with
  | Some c => Ok c
  | None => Raise (ValueError "not a valid TableErrorCode")
  end.

(** ** Responses

    What [_decode_error] reads from a response: the [x-ms-error-code]
    header, the [reason] phrase and the outcome of
    [ContentDecodePolicy.deserialize_from_http_generics], which belongs to
    azure-core and is taken as given.  So is [odata_v4_error]: the text
    [str(self.error)] of the OData v4 error that the constructor of
    [HttpResponseError] parses out of the body (a JSON text with a
    top-level [error], [code] or [message]), [None] when it finds none, as
    for an XML body or a JSON body that only holds an [odata.error]
    envelope.  A deserialized body is a value of
    [json.loads] (with [JNull] for an absent body and [JStr] for a text
    body) or an XML element. *)

Inductive body :=
| Json (v : json)
| Xml (e : Element).

Record Response := mkResponse {
  x_ms_error_code : option string;
  reason : option string;
  odata_v4_error : option string;
  deserialize_from_http_generics : result body
}.

Definition of_text (t : option string) : json :=
  match t with
  | Some s => JStr s
  | None => JNull
  end.

(** The three local variables the first [try] block of [_decode_error]
    assigns. *)
Record decoded := mkDecoded {
  d_error_code : json;
  d_error_message : json;
  d_additional_data : list (string * option string)
}.

(** Body of [for info in error_body.get("odata.error", {})]. *)
Definition decode_json_info (error_body : json) (st : decoded) (info : json)
  : result decoded :=
  if eq_str info "code" then
    envelope <- getitem error_body "odata.error" ;;
    v <- getitem envelope "code" ;;
    Ok (mkDecoded v (d_error_message st) (d_additional_data st))
  else if eq_str info "message" then
    envelope <- getitem error_body "odata.error" ;;
    m <- getitem envelope "message" ;;
    v <- getitem m "value" ;;
    Ok (mkDecoded (d_error_code st) v (d_additional_data st))
  else
    (* [info.tag]: no value of [json.loads] has that attribute *)
    Raise AttributeError.

(** Body of [for info in error_body.iter()]. *)
Definition decode_xml_info (st : decoded) (info : Element) : result decoded :=
  if find_ne_minus1 (lower (tag info)) "code" then
    Ok (mkDecoded (of_text (text info)) (d_error_message st)
          (d_additional_data st))
  else if find_ne_minus1 (lower (tag info)) "message" then
    Ok (mkDecoded (d_error_code st) (of_text (text info))
          (d_additional_data st))
  else
    Ok (mkDecoded (d_error_code st) (d_error_message st)
          (dict_set (tag info) (text info) (d_additional_data st))).

(** The first [try] block.  Only the deserialization raises
    [DecodeError], before anything is assigned, so the handler resumes
    from the initial values. *)
Definition decode_body (response : Response) (error_message : json)
  : result decoded :=
  let st0 :=
    mkDecoded (of_text (x_ms_error_code response)) error_message [] in
  try_except
    (error_body <- deserialize_from_http_generics response ;;
     match error_body with
     | Json (JObj fields) =>
         let envelope :=
           match assoc "odata.error" fields with
           | Some v => v
           | None => JObj []
           end in
         infos <- py_iter envelope ;;
         for_each (decode_json_info (JObj fields)) infos st0
     | Json v =>
         if truthy v then Raise AttributeError (* [error_body.iter] *)
         else Ok st0
     | Xml root =>
         if element_truthy root then for_each decode_xml_info (iter root) st0
         else Ok st0
     end)
    DecodeError
    (Ok st0).

(** ** Classification *)

Inductive exc_class :=
| HttpResponseError
| ResourceNotFoundError
| ResourceModifiedError
| ResourceExistsError
| ClientAuthenticationError
| TableTransactionError
| RequestTooLargeError.

(** [error.error_code]: a member of the enumeration, or the value as
    decoded. *)
Inductive ErrorCode :=
| Member (c : TableErrorCode)
| Raw (v : json).

(** An element of the list literals of the classification: a member or
    an exception class. *)
Inductive list_item :=
| code_item (c : TableErrorCode)
| class_item (t : exc_class).

(** [error_code in [...]] for a member: members are [str], compared by
    value; no member equals a class. *)
Definition member_in (c : TableErrorCode) (l : list list_item) : bool :=
  existsb (fun it =>
             match it with
             | code_item d => String.eqb (value c) (value d)
             | class_item _ => false
             end) l.

(** The second [try] block: the new [error_code] and [error_type]. *)
Definition classify (error_code : json) (error_type : option exc_class)
  : result (ErrorCode * exc_class) :=
  match error_type with
  | Some t => Ok (Raw error_code, t)
  | None =>
      try_except
        (c <- TableErrorCode_call error_code ;;
         if member_in c [code_item condition_not_met;
                         code_item update_condition_not_satisfied]
         then Ok (Member c, ResourceModifiedError)
         else if member_in c [code_item invalid_authentication_info;
                              code_item authentication_failed]
         then Ok (Member c, ClientAuthenticationError)
         else if member_in c [code_item resource_not_found;
                              code_item table_not_found;
                              code_item entity_not_found;
                              class_item ResourceNotFoundError]
         then Ok (Member c, ResourceNotFoundError)
         else if member_in c [code_item resource_already_exists;
                              code_item table_already_exists;
                              code_item account_already_exists;
                              code_item entity_already_exists;
                              class_item ResourceExistsError]
         then Ok (Member c, ResourceExistsError)
         else Ok (Member c, HttpResponseError))
        (ValueError "")
        (Ok (Raw error_code, HttpResponseError))
  end.

(** [message += s]: concatenation on a [str], extension by the
    characters of [s] on a [list], [TypeError] on anything else. *)
Definition iadd (message : json) (s : string) : result json :=
  match message with
  | JStr m => Ok (JStr (m ++ s))
  | JArr items => Ok (JArr (items ++ map JStr (chars s))%list)
  | _ => Raise TypeError
  end.

(** [error_code.value]. *)
Definition getattr_value (c : ErrorCode) : result string :=
  match c with
  | Member m => Ok (value m)
  | Raw _ => Raise AttributeError
  end.

(** ** Table-name patterns

    Both patterns have the shape [^ C1{a,b} C2{c,d} $]: a pattern is the
    list of its repeated character classes, and [re_match] is
    [pattern.match(s) is not None]. *)

Record item := mkItem {
  cls : ascii -> bool;
  lo : nat;
  hi : nat
}.

(** [$] without [re.MULTILINE]: the end of the string, or just before a
    newline that ends the string. *)
Definition at_dollar (s : string) : bool :=
  match s with
  | EmptyString => true
  | String c EmptyString => (nat_of_ascii c =? 10)%nat
  | _ => false
  end.

(** Between [lo] and [hi] characters of class [p], longest first, then
    the rest of the pattern [k]. *)
Fixpoint repeat_class (p : ascii -> bool) (lo hi : nat) (k : string -> bool)
  (s : string) {struct hi} : bool :=
  match hi with
  | O => (lo =? 0)%nat && k s
  | S hi' =>
      match s with
      | String c rest =>
          (p c && repeat_class p (pred lo) hi' k rest)
          || ((lo =? 0)%nat && k s)
      | EmptyString => (lo =? 0)%nat && k s
      end
  end.

Fixpoint re_match (pattern : list item) (s : string) : bool :=
  match pattern with
  | [] => at_dollar s
  | it :: rest => repeat_class (cls it) (lo it) (hi it) (re_match rest) s
  end.

Definition is_letter (c : ascii) : bool :=
  in_range 97 122 c || in_range 65 90 c.

Definition is_digit (c : ascii) : bool := in_range 48 57 c.

Definition is_alnum (c : ascii) : bool := is_letter c || is_digit c.

(** [[^/\\#?]] *)
Definition cosmos_char (c : ascii) : bool :=
  let n := nat_of_ascii c in
  negb ((n =? 47) || (n =? 92) || (n =? 35) || (n =? 63))%nat.

(** [[^ /\\#?]] *)
Definition cosmos_last_char (c : ascii) : bool :=
  negb (nat_of_ascii c =? 32)%nat && cosmos_char c.

Definition _STORAGE_VALID_TABLE : list item :=
  [mkItem is_letter 1 1; mkItem is_alnum 2 62].

Definition _COSMOS_VALID_TABLE : list item :=
  [mkItem cosmos_char 0 253; mkItem cosmos_last_char 1 1].

Definition storage_message : string :=
  "Storage table names must be alphanumeric, cannot begin with a number, and must be between 3-63 characters long.".

Definition cosmos_message : string :=
  "Cosmos table names must contain from 1-255 characters, and they cannot contain /, \, #, ?, or a trailing space.".

Definition _validate_storage_tablename (table_name : string) : result unit :=
  if negb (re_match _STORAGE_VALID_TABLE table_name)
  then Raise (ValueError storage_message)
  else Ok tt.

Definition _validate_cosmos_tablename (table_name : string) : result unit :=
  if negb (re_match _COSMOS_VALID_TABLE table_name)
  then Raise (ValueError cosmos_message)
  else Ok tt.

(** ** Decoded errors

    The exception object [_decode_error] returns.  The constructors belong
    to azure-core; what is kept of them is how [message] is chosen (the
    text of an OData v4 error found in the body, else [str] of the message
    handed over, else a text built from [reason]), and that a
    [TableTransactionError] has an [index]. *)

Record HttpError := mkHttpError {
  exc_type : exc_class;
  message : string;
  response : Response;
  error_code : ErrorCode;
  additional_info : list (string * option string);
  index : option Z
}.

(** [decoded_error.error_code == s] for a [str] literal [s]. *)
Definition code_is (c : ErrorCode) (s : string) : bool :=
  match c with
  | Member m => String.eqb (value m) s
  | Raw v => eq_str v s
  end.

Definition _validate_tablename_error (decoded_error : HttpError)
  (table_name : string) : result unit :=
  let code := error_code decoded_error in
  let msg := message decoded_error in
  if code_is code "InvalidResourceName" &&
     str_in "The specified resource name contains invalid characters" msg
  then _validate_storage_tablename table_name
  else if code_is code "InvalidResourceName" &&
     str_in "The specifed resource name contains invalid characters" msg
  then _validate_storage_tablename table_name
  else if code_is code "OutOfRangeInput" &&
     str_in "The specified resource name length is not within the permissible limits" msg
  then _validate_storage_tablename table_name
  else if code_is code "InternalServerError" &&
     (str_in "The resource name presented contains invalid character" msg ||
      str_in "The resource name can't end with space" msg)
  then _validate_cosmos_tablename table_name
  else if code_is code "BadRequest" &&
     str_in "The input name is invalid." msg
  then _validate_cosmos_tablename table_name
  else if code_is code "InvalidInput" &&
     (str_in "Request url is invalid." msg ||
      str_in "One of the input values is invalid." msg ||
      str_in "The table name contains an invalid character" msg ||
      str_in "Table name cannot end with a space." msg)
  then _validate_cosmos_tablename table_name
  else if code_is code "Unauthorized" &&
     (str_in "The input authorization token can't serve the request." msg ||
      str_in "The MAC signature found in the HTTP request" msg)
  then _validate_cosmos_tablename table_name
  else Ok tt.

(** ** [int(str)]

    The decimal literal of CPython 3.6 and later: white space, an optional
    sign, digits with single underscores between them, white space.  White
    space is U+0009..U+000D, U+0020, U+0085 and U+00A0.  More than 640
    digits are refused when they exceed the interpreter's limit. *)

Definition is_space (c : ascii) : bool :=
  let n := nat_of_ascii c in
  in_range 9 13 c || (n =? 32)%nat || (n =? 133)%nat || (n =? 160)%nat.

Definition digit_value (c : ascii) : Z := Z.of_nat (nat_of_ascii c - 48).

Fixpoint lstrip (s : string) : string :=
  match s with
  | String c rest => if is_space c then lstrip rest else s
  | EmptyString => EmptyString
  end.

Fixpoint all_space (s : string) : bool :=
  match s with
  | String c rest => is_space c && all_space rest
  | EmptyString => true
  end.

(** The digits at the head of [s]: their value (continuing [acc]), their
    number (continuing [count]) and what follows; [None] when an
    underscore is not followed by a digit. *)
Fixpoint scan_digits (acc : Z) (count : nat) (s : string)
  : option (Z * nat * string) :=
  match s with
  | EmptyString => Some (acc, count, EmptyString)
  | String c rest =>
      if is_digit c
      then scan_digits (acc * 10 + digit_value c) (S count) rest
      else if (nat_of_ascii c =? 95)%nat
      then match rest with
           | String d rest' =>
               if is_digit d
               then scan_digits (acc * 10 + digit_value d) (S count) rest'
               else None
           | EmptyString => None
           end
      else Some (acc, count, s)
  end.

Definition invalid_literal : exn := ValueError "invalid literal for int()".

Section Interpreter.

(** [repr] of the lists and dicts of [json.loads], which [str.format]
    falls back on. *)
Variable py_repr : json -> string.

(** [sys.get_int_max_str_digits()]: 0 when the interpreter sets no
    limit. *)
Variable int_max_str_digits : nat.

(** The digits of the literal and the white space after them. *)
Definition int_digits (s : string) : result Z :=
  match s with
  | String c _ =>
      if is_digit c then
        match scan_digits 0 0 s with
        | Some (n, count, rest) =>
            if (640 <? count)%nat && (0 <? int_max_str_digits)%nat
               && (int_max_str_digits <? count)%nat
            then Raise (ValueError "Exceeds the limit for integer string conversion")
            else if all_space rest then Ok n
            else Raise invalid_literal
        | None => Raise invalid_literal
        end
      else Raise invalid_literal
  | EmptyString => Raise invalid_literal
  end.

Definition py_int (s : string) : result Z :=
  match lstrip s with
  | String c rest =>
      if (nat_of_ascii c =? 43)%nat then int_digits rest
      else if (nat_of_ascii c =? 45)%nat
      then n <- int_digits rest ;; Ok (- n)%Z
      else int_digits (String c rest)
  | EmptyString => Raise invalid_literal
  end.

(** [s.split(':', 1)[0]] *)
Fixpoint before_colon (s : string) : string :=
  match s with
  | EmptyString => EmptyString
  | String c rest =>
      if (nat_of_ascii c =? 58)%nat then EmptyString
      else String c (before_colon rest)
  end.

(** [TableTransactionError._extract_index], on [self.message]. *)
Definition _extract_index (self_message : string) : Z :=
  match py_int (before_colon self_message) with
  | Ok n => n
  | Raise _ => 0%Z
  end.

(** ["{}".format(v)] *)
Definition py_format (v : json) : string :=
  match v with
  | JNull => "None"
  | JBool true => "True"
  | JBool false => "False"
  | JInt n => string_of_Z n
  | JStr s => s
  | _ => py_repr v
  end.

Definition format_text (t : option string) : string := py_format (of_text t).

(** ["{}".format(error_code)] in the [except AttributeError] branch,
    which only a code without [value] reaches. *)
Definition format_code (c : ErrorCode) : string :=
  match c with
  | Member m => value m
  | Raw v => py_format v
  end.

(** The keyword arguments the model follows: [index]. *)
Record kwargs := mkKwargs {
  kw_index : option Z
}.

(** [error_type(message=message, response=response, **kwargs)]: the
    message is the text of the OData v4 error when the constructor finds
    one in the body, else [str] of the message handed over, else a text
    built from [reason]. *)
Definition new_error (error_type : exc_class) (message : json)
  (response : Response) (kw : kwargs) : HttpError :=
  let self_message :=
    match odata_v4_error response with
    | Some text => text
    | None =>
        if truthy message then py_format message
        else "Operation returned an invalid status '"
             ++ format_text (reason response) ++ "'"
    end in
  let index :=
    match error_type with
    | TableTransactionError | RequestTooLargeError =>
        Some (match kw_index kw with
              | Some i => i
              | None => _extract_index self_message
              end)
    | _ => None
    end in
  mkHttpError error_type self_message response (Raw JNull) [] index.

Definition set_code_info (e : HttpError) (c : ErrorCode)
  (info : list (string * option string)) : HttpError :=
  mkHttpError (exc_type e) (message e) (response e) c info (index e).

(** The third part of [_decode_error]: the code line and one line per
    entry of [additional_data]. *)
Definition decorate (error_message : json) (error_code : ErrorCode)
  (additional_data : list (string * option string)) : result json :=
  m <- try_except
         (v <- getattr_value error_code ;;
          iadd error_message (nl ++ "ErrorCode:" ++ v))
         AttributeError
         (iadd error_message (nl ++ "ErrorCode:" ++ format_code error_code)) ;;
  for_each
    (fun m kv => iadd m (nl ++ fst kv ++ ":" ++ format_text (snd kv)))
    additional_data m.

(** [response] is [None] when the caller had no response: reading
    [response.headers] then raises. *)
Definition _decode_error (response : option Response) (error_message : json)
  (error_type : option exc_class) (kw : kwargs) : result HttpError :=
  match response with
  | None => Raise AttributeError
  | Some response =>
      st <- decode_body response error_message ;;
      ct <- classify (d_error_code st) error_type ;;
      m <- decorate (d_error_message st) (fst ct) (d_additional_data st) ;;
      Ok (set_code_info (new_error (snd ct) m response kw)
            (fst ct) (d_additional_data st))
  end.

(** ** [_process_table_error]

    The error handed in is any object: its [response] and [message]
    attributes may be missing.  The function never returns; [raised] is
    what it raises. *)

Record StorageError := mkStorageError {
  se_response : option (option Response);
  se_message : option json
}.

Inductive raised :=
| raise_storage_error (e : StorageError)
| raise_decoded_error (e : HttpError)
| raise_exn (e : exn).

Definition getattr {A} (a : option A) : result A :=
  match a with
  | Some v => Ok v
  | None => Raise AttributeError
  end.

(** [_reraise_error]: on either path it raises [decoded_error]. *)
Definition _reraise_error (decoded_error : HttpError) : raised :=
  raise_decoded_error decoded_error.

Definition _process_table_error (storage_error : StorageError)
  (table_name : option string) : raised :=
  match (r <- getattr (se_response storage_error) ;;
         m <- getattr (se_message storage_error) ;;
         _decode_error r m None (mkKwargs None)) with
  | Raise AttributeError => raise_storage_error storage_error
  | Raise e => raise_exn e
  | Ok decoded_error =>
      let validated :=
        match table_name with
        | Some name =>
            if negb (String.eqb name "")
            then _validate_tablename_error decoded_error name
            else Ok tt
        | None => Ok tt
        end in
      match validated with
      | Raise e => raise_exn e
      | Ok _ => _reraise_error decoded_error
      end
  end.

End Interpreter.

(** ** The classification table of the specification

    The kinds of the error taxonomy, the kind each exception class stands
    for, and the kind documented for a wire code, by membership of the
    code string in the fixed sets. *)

Inductive kind :=
| NotFound
| AlreadyExists
| ModifiedConflict
| AuthFailure
| Generic
| TransactionFailure
| RequestTooLarge.

Definition kind_of (t : exc_class) : kind :=
  match t with
  | HttpResponseError => Generic
  | ResourceNotFoundError => NotFound
  | ResourceModifiedError => ModifiedConflict
  | ResourceExistsError => AlreadyExists
  | ClientAuthenticationError => AuthFailure
  | TableTransactionError => TransactionFailure
  | RequestTooLargeError => RequestTooLarge
  end.

Definition mem (s : string) (l : list string) : bool :=
  existsb (String.eqb s) l.

Definition is_wire_code (s : string) : bool := mem s (map value members).

Definition documented_kind (s : string) : kind :=
  if mem s ["ConditionNotMet"; "UpdateConditionNotSatisfied"]
  then ModifiedConflict
  else if mem s ["InvalidAuthenticationInfo"; "AuthenticationFailed"]
  then AuthFailure
  else if mem s ["ResourceNotFound"; "TableNotFound"; "EntityNotFound"]
  then NotFound
  else if mem s ["ResourceAlreadyExists"; "TableAlreadyExists";
                 "AccountAlreadyExists"; "EntityAlreadyExists"]
  then AlreadyExists
  else Generic.

(** ** The decorated message, as the specification reads it back

    [lines] is what the last loop of [_decode_error] appends, and
    [parse_suffix] re-reads an appended suffix: an empty first line, the
    [ErrorCode:] line, then one [key:value] line per entry. *)

Fixpoint all_chars (p : ascii -> bool) (s : string) : bool :=
  match s with
  | EmptyString => true
  | String c rest => p c && all_chars p rest
  end.

Definition not_newline (c : ascii) : bool := negb (nat_of_ascii c =? 10)%nat.

Definition not_colon (c : ascii) : bool := negb (nat_of_ascii c =? 58)%nat.

Definition one_line (s : string) : bool := all_chars not_newline s.

Definition key_ok (k : string) : bool :=
  all_chars not_newline k && all_chars not_colon k.

Definition lines (fmt : option string -> string)
  (additional_data : list (string * option string)) : string :=
  fold_right (fun kv acc => nl ++ fst kv ++ ":" ++ fmt (snd kv) ++ acc)
    EmptyString additional_data.

(** An entry that reads back: no newline in its key or value text, no
    colon in its key. *)
Definition entry_ok (fmt : option string -> string)
  (kv : string * option string) : bool :=
  key_ok (fst kv) && one_line (fmt (snd kv)).

Definition entry_text (fmt : option string -> string)
  (kv : string * option string) : string * string :=
  (fst kv, fmt (snd kv)).

Definition entry_line (fmt : option string -> string)
  (kv : string * option string) : string :=
  fst kv ++ ":" ++ fmt (snd kv).

(** [s.split("\n")] *)
Fixpoint split_lines (s : string) : list string :=
  match s with
  | EmptyString => [EmptyString]
  | String c rest =>
      if not_newline c then
        match split_lines rest with
        | l :: ls => String c l :: ls
        | [] => [String c EmptyString]
        end
      else EmptyString :: split_lines rest
  end.

(** [line.split(":", 1)] when the line has a colon. *)
Fixpoint split_colon (s : string) : option (string * string) :=
  match s with
  | EmptyString => None
  | String c rest =>
      if not_colon c then
        match split_colon rest with
        | Some (k, v) => Some (String c k, v)
        | None => None
        end
      else Some (EmptyString, rest)
  end.

Fixpoint parse_entries (ls : list string) : option (list (string * string)) :=
  match ls with
  | [] => Some []
  | l :: ls' =>
      match split_colon l, parse_entries ls' with
      | Some kv, Some rest => Some (kv :: rest)
      | _, _ => None
      end
  end.

Definition parse_suffix (suffix : string)
  : option (string * list (string * string)) :=
  match split_lines suffix with
  | EmptyString :: code_line :: entry_lines =>
      match split_colon code_line, parse_entries entry_lines with
      | Some (label, code), Some entries =>
          if String.eqb label "ErrorCode" then Some (code, entries) else None
      | _, _ => None
      end
  | _ => None
  end.

(** [k in d] *)
Definition has_key (k : string) (d : list (string * json)) : bool :=
  existsb (fun kv => String.eqb (fst kv) k) d.

(** ** The naming grammars, as the specification states them *)

(** [name] without the newline that ends it, if one does. *)
Fixpoint chomp (s : string) : string :=
  match s with
  | EmptyString => EmptyString
  | String c rest =>
      match rest with
      | EmptyString => if not_newline c then s else EmptyString
      | String _ _ => String c (chomp rest)
      end
  end.

(** Storage: a letter followed by 2 to 62 letters or digits. *)
Definition storage_grammar (name : string) : bool :=
  match name with
  | EmptyString => false
  | String c rest =>
      is_letter c && all_chars is_alnum rest
      && (2 <=? String.length rest)%nat && (String.length rest <=? 62)%nat
  end.

Fixpoint split_last (s : string) : option (string * ascii) :=
  match s with
  | EmptyString => None
  | String c rest =>
      match split_last rest with
      | Some (front, l) => Some (String c front, l)
      | None => Some (EmptyString, c)
      end
  end.

(** Cosmos: 0 to 253 characters outside [/ \ # ?], then one character
    outside [/ \ # ?] and space. *)
Definition cosmos_grammar (name : string) : bool :=
  match split_last name with
  | Some (front, l) =>
      (String.length front <=? 253)%nat && all_chars cosmos_char front
      && cosmos_last_char l
  | None => false
  end.

(** ** Integer literals, as the specification reads them *)

(** The value of a string of decimal digits. *)
Fixpoint decimal_value (digits : string) : Z :=
  match digits with
  | EmptyString => 0%Z
  | String c rest =>
      (digit_value c * 10 ^ Z.of_nat (String.length rest)
       + decimal_value rest)%Z
  end.

Definition is_sign (c : ascii) : bool :=
  (nat_of_ascii c =? 43)%nat || (nat_of_ascii c =? 45)%nat.

(** After white space the message starts with a digit, or with a sign
    and a digit. *)
Definition has_leading_integer (s : string) : bool :=
  match lstrip s with
  | String c rest =>
      is_digit c
      || (is_sign c
          && match rest with
             | String d _ => is_digit d
             | EmptyString => false
             end)
  | EmptyString => false
  end.

(** The grammar of the literal: digits in groups that single underscores
    separate.  The text starts and ends with a digit and no underscore
    follows another; [after_digit] tells whether the character before is a
    digit. *)
Fixpoint digit_groups_from (after_digit : bool) (s : string) : bool :=
  match s with
  | EmptyString => after_digit
  | String c rest =>
      if is_digit c then digit_groups_from true rest
      else (nat_of_ascii c =? 95)%nat && after_digit
           && digit_groups_from false rest
  end.

Definition digit_groups (s : string) : bool := digit_groups_from false s.

(** The digits of the groups. *)
Fixpoint strip_underscores (s : string) : string :=
  match s with
  | EmptyString => EmptyString
  | String c rest =>
      if (nat_of_ascii c =? 95)%nat then strip_underscores rest
      else String c (strip_underscores rest)
  end.

(** [text] is an integer literal with sign [sgn] and digit groups [body]:
    white space, the sign if any, the groups, white space. *)
Definition int_literal (text sgn body : string) : Prop :=
  exists ws1 ws2,
    text = ws1 ++ sgn ++ body ++ ws2
    /\ all_chars is_space ws1 = true
    /\ all_chars is_space ws2 = true
    /\ (sgn = "" \/ sgn = "+" \/ sgn = "-")
    /\ digit_groups body = true.

Definition literal_value (sgn body : string) : Z :=
  let v := decimal_value (strip_underscores body) in
  if String.eqb sgn "-" then (- v)%Z else v.

(** More than 640 digits, and more than the limit [lim] of the
    interpreter when it has one ([lim] is 0 when it has none): [int]
    refuses the literal. *)
Definition digits_refused (lim : nat) (body : string) : bool :=
  let k := String.length (strip_underscores body) in
  (640 <? k)%nat && (0 <? lim)%nat && (lim <? k)%nat.

(** What [int] raises then. *)
Definition digit_limit_error : exn :=
  ValueError "Exceeds the limit for integer string conversion".

(** After white space the message starts with a minus sign. *)
Definition starts_with_minus (s : string) : bool :=
  match lstrip s with
  | String c _ => (nat_of_ascii c =? 45)%nat
  | EmptyString => false
  end.

(** ** XML decoding over the direct children only, as the specification
    describes it *)

Definition decode_children (header_code : option string) (error_message : json)
  (root : Element) : decoded :=
  fold_left
    (fun st child =>
       if str_in "code" (lower (tag child)) then
         mkDecoded (of_text (text child)) (d_error_message st)
           (d_additional_data st)
       else if str_in "message" (lower (tag child)) then
         mkDecoded (d_error_code st) (of_text (text child))
           (d_additional_data st)
       else
         mkDecoded (d_error_code st) (d_error_message st)
           (dict_set (tag child) (text child) (d_additional_data st)))
    (children root)
    (mkDecoded (of_text header_code) error_message []).

(** [within e root]: [e] is [root] or one of its descendants. *)
Inductive within (e : Element) : Element -> Prop :=
| within_self : within e e
| within_child : forall child root,
    In child (children root) -> within e child -> within e root.

(** The element that binds tag [k] last in [l]. *)
Definition last_tagged (k : string) (l : list Element) : option Element :=
  find (fun e => String.eqb k (tag e)) (rev l).

(** The three roles an element can play for [_decode_error]. *)
Definition is_code (e : Element) : bool := str_in "code" (lower (tag e)).

Definition is_message (e : Element) : bool :=
  negb (is_code e) && str_in "message" (lower (tag e)).

Definition is_other (e : Element) : bool :=
  negb (is_code e) && negb (str_in "message" (lower (tag e))).

(** ** Example inputs *)

Definition repr0 : json -> string := fun _ => "".

Definition no_kwargs : kwargs := mkKwargs None.

Fixpoint replicate (n : nat) (c : ascii) : string :=
  match n with
  | O => EmptyString
  | S n' => String c (replicate n' c)
  end.

(** An XML error whose [detail] value spans two lines, and one with the
    second line as an element of its own. *)
Definition xml_two_line_value : Element :=
  mkElement "error" None
    [mkElement "code" (Some "InvalidInput") [];
     mkElement "message" (Some "Bad input.") [];
     mkElement "detail" (Some ("x" ++ nl ++ "hint:y")) []].

Definition xml_two_entries : Element :=
  mkElement "error" None
    [mkElement "code" (Some "InvalidInput") [];
     mkElement "message" (Some "Bad input.") [];
     mkElement "detail" (Some "x") [];
     mkElement "hint" (Some "y") []].

(** The example responses carry an XML body, a JSON body whose only
    top-level key is [odata.error], a text, or nothing that parses: the
    exception constructor finds no OData v4 error in any of them. *)
Definition xml_response (root : Element) : Response :=
  mkResponse None None None (Ok (Xml root)).

Definition json_response (v : json) : Response :=
  mkResponse None None None (Ok (Json v)).

Definition odata_error (fields : list (string * json)) : json :=
  JObj [("odata.error", JObj fields)].

Definition odata_message (s : string) : json :=
  JObj [("lang", JStr "en-US"); ("value", JStr s)].

(** The storage service's complaint about a table name, worded without
    the leading article. *)
Definition invalid_name_response : Response :=
  json_response
    (odata_error
       [("code", JStr "InvalidResourceName");
        ("message",
         odata_message
           "A specified resource name contains invalid characters.")]).

Definition invalid_name_response_exact : Response :=
  json_response
    (odata_error
       [("code", JStr "InvalidResourceName");
        ("message",
         odata_message
           "The specified resource name contains invalid characters.")]).

(** A JSON error with a field next to [code] and [message]. *)
Definition json_with_sibling : Response :=
  json_response
    (odata_error
       [("code", JStr "TableNotFound");
        ("message", odata_message "The table specified does not exist.");
        ("innererror", JStr "trace")]).

Definition json_plain : Response :=
  json_response
    (odata_error
       [("code", JStr "TableNotFound");
        ("message", odata_message "The table specified does not exist.")]).

(** A response whose body cannot be parsed. *)
Definition unparsable_response : Response :=
  mkResponse (Some "TableNotFound") (Some "Not Found") None
    (Raise DecodeError).

(** An XML error with a nested element. *)
Definition xml_nested : Element :=
  mkElement "error" (Some " ")
    [mkElement "code" (Some "TableNotFound") [];
     mkElement "message" (Some "The table specified does not exist.") [];
     mkElement "innererror" None
       [mkElement "errorcode" (Some "Inner") []]].

(** The Cosmos complaint about a table name, the error decoded from it,
    and a name of 255 characters that ends with a newline. *)
Definition cosmos_response : Response :=
  json_response
    (odata_error
       [("code", JStr "BadRequest");
        ("message", odata_message "The input name is invalid.")]).

Definition cosmos_bad_request : HttpError :=
  mkHttpError HttpResponseError
    ("The input name is invalid." ++ nl ++ "ErrorCode:BadRequest")
    cosmos_response (Raw (JStr "BadRequest")) [] None.

Definition name_255 : string :=
  replicate 253 "a"%char ++ "b" ++ nl.

(** An error object with a message and no [response] attribute. *)
Definition error_without_response : StorageError :=
  mkStorageError None (Some (JStr "connection reset")).

Definition storage_error_of (r : Response) : StorageError :=
  mkStorageError (Some (Some r)) (Some (JStr "Bad Request")).

(** A batch failure whose message starts with a negative number. *)
Definition negative_index_response : Response :=
  json_response
    (odata_error
       [("code", JStr "EntityAlreadyExists");
        ("message", odata_message "-3:The specified entity already exists.")]).

(** ** The signatures the name validator recognises

    [storage_signature] holds when one of the three branches that run the
    storage check matches, [cosmos_signature] when one of the four branches
    that run the Cosmos check does. *)

Definition storage_signature (code : ErrorCode) (msg : string) : bool :=
  (code_is code "InvalidResourceName"
   && (str_in "The specified resource name contains invalid characters" msg
       || str_in "The specifed resource name contains invalid characters" msg))
  || (code_is code "OutOfRangeInput"
      && str_in "The specified resource name length is not within the permissible limits" msg).

Definition cosmos_signature (code : ErrorCode) (msg : string) : bool :=
  (code_is code "InternalServerError"
   && (str_in "The resource name presented contains invalid character" msg
       || str_in "The resource name can't end with space" msg))
  || (code_is code "BadRequest" && str_in "The input name is invalid." msg)
  || (code_is code "InvalidInput"
      && (str_in "Request url is invalid." msg
          || str_in "One of the input values is invalid." msg
          || str_in "The table name contains an invalid character" msg
          || str_in "Table name cannot end with a space." msg))
  || (code_is code "Unauthorized"
      && (str_in "The input authorization token can't serve the request." msg
          || str_in "The MAC signature found in the HTTP request" msg)).

(** The six codes the validator tests for. *)
Definition signature_codes : list string :=
  ["InvalidResourceName"; "OutOfRangeInput"; "InternalServerError";
   "BadRequest"; "InvalidInput"; "Unauthorized"].

(** ** Bodies and exceptions *)

(** A body the first [try] block takes nothing from: one that cannot be
    parsed, an absent or false JSON value, a JSON object whose envelope is
    missing or empty, an XML root without children. *)
Definition no_content (b : result body) : bool :=
  match b with
  | Raise e => exn_eqb e DecodeError
  | Ok (Json (JObj fields)) =>
      match assoc "odata.error" fields with
      | None => true
      | Some envelope =>
          match py_iter envelope with
          | Ok [] => true
          | _ => false
          end
      end
  | Ok (Json v) => negb (truthy v)
  | Ok (Xml root) => negb (element_truthy root)
  end.

Definition is_object (v : json) : bool :=
  match v with
  | JObj _ => true
  | _ => false
  end.

(** The exceptions the statements of [_decode_error] raise by
    themselves. *)
Definition decoding_exn (e : exn) : bool :=
  match e with
  | AttributeError | TypeError | KeyError => true
  | _ => false
  end.

(** A key that names neither a code nor a message. *)
Definition plain_key (k : string) : Prop :=
  str_in "code" (lower k) = false /\ str_in "message" (lower k) = false.

(** ** More example inputs *)

Definition text_body_response : Response :=
  mkResponse (Some "ServerBusy") (Some "Service Unavailable") None
    (Ok (Json (JStr "The server is busy."))).

Definition empty_body_response : Response :=
  mkResponse (Some "TableNotFound") (Some "Not Found") None
    (Ok (Json JNull)).

Definition out_of_range_response : Response :=
  json_response
    (odata_error
       [("code", JStr "OutOfRangeInput");
        ("message",
         odata_message
           "The specified resource name length is not within the permissible limits.")]).

Definition unauthorized_response : Response :=
  json_response
    (odata_error
       [("code", JStr "Unauthorized");
        ("message",
         odata_message
           "The input authorization token can't serve the request.")]).

Definition typo_error : HttpError :=
  mkHttpError HttpResponseError
    ("The specifed resource name contains invalid characters." ++ nl
       ++ "ErrorCode:InvalidResourceName")
    unparsable_response (Member invalid_resource_name) [] None.

Definition not_found_error : HttpError :=
  mkHttpError ResourceNotFoundError
    ("The table specified does not exist." ++ nl ++ "ErrorCode:TableNotFound")
    unparsable_response (Member table_not_found) [] None.

Definition error_with_none_response : StorageError :=
  mkStorageError (Some None) (Some (JStr "connection reset")).

(** * Properties *)

(** ** Calls that return *)

Lemma bind_Ok : forall A B (c : result A) (k : A -> result B) b,
  bind c k = Ok b -> exists a, c = Ok a /\ k a = Ok b.
Proof.
  intros A B [a|e] k b H; simpl in H; [eauto | discriminate].
Qed.

Lemma append_assoc : forall a b c : string, (a ++ b) ++ c = a ++ (b ++ c).
Proof.
  induction a as [|x a IH]; intros; simpl; [reflexivity | now rewrite IH].
Qed.

Lemma append_empty_r : forall a : string, a ++ "" = a.
Proof.
  induction a as [|x a IH]; simpl; [reflexivity | now rewrite IH].
Qed.

Lemma length_append : forall a b : string,
  String.length (a ++ b) = (String.length a + String.length b)%nat.
Proof.
  induction a as [|x a IH]; intros; simpl; [reflexivity | now rewrite IH].
Qed.

(** ** Lookup of a wire code in the enumeration *)

Lemma find_wire_code : forall s l,
  mem s (map value l) = true ->
  exists c, find (fun c => eq_str (JStr s) (value c)) l = Some c.
Proof.
  intros s l; induction l as [|c l IH]; simpl; intros H.
  - discriminate.
  - destruct (String.eqb s (value c)); simpl in *; eauto.
Qed.

Lemma find_not_wire_code : forall s l,
  mem s (map value l) = false ->
  find (fun c => eq_str (JStr s) (value c)) l = None.
Proof.
  intros s l; induction l as [|c l IH]; simpl; intros H; auto.
  destruct (String.eqb s (value c)); simpl in *; [discriminate | auto].
Qed.

Lemma call_value : forall c, TableErrorCode_call (JStr (value c)) = Ok c.
Proof. destruct c; reflexivity. Qed.

Lemma call_wire_code : forall s,
  is_wire_code s = true ->
  exists c, value c = s /\ TableErrorCode_call (JStr s) = Ok c.
Proof.
  intros s H. destruct (find_wire_code s members H) as [c F].
  exists c. unfold TableErrorCode_call. rewrite F. split; auto.
  apply find_some in F. destruct F as [_ F]. simpl in F.
  apply String.eqb_eq in F. auto.
Qed.

Lemma call_not_wire_code : forall s,
  is_wire_code s = false ->
  TableErrorCode_call (JStr s) = Raise (ValueError "not a valid TableErrorCode").
Proof.
  intros s H. unfold TableErrorCode_call.
  now rewrite (find_not_wire_code s members H).
Qed.

Lemma classify_member : forall c,
  exists t, classify (JStr (value c)) None = Ok (Member c, t)
            /\ kind_of t = documented_kind (value c).
Proof.
  intros c; unfold classify; rewrite call_value; simpl bind.
  destruct c; vm_compute; eauto.
Qed.

Lemma classify_unknown : forall s,
  is_wire_code s = false ->
  classify (JStr s) None = Ok (Raw (JStr s), HttpResponseError).
Proof.
  intros s H. unfold classify. now rewrite (call_not_wire_code s H).
Qed.

(** Classification itself never raises. *)
Lemma classify_total : forall v ty, exists c t, classify v ty = Ok (c, t).
Proof.
  intros v [t|]; simpl; [eauto|].
  unfold TableErrorCode_call.
  destruct (find _ members) as [c|]; simpl; [|eauto].
  destruct c; vm_compute; eauto.
Qed.

(** ** The decoration of the message *)

Section Decoration.

Variable py_repr : json -> string.

Lemma code_line : forall m code,
  try_except
    (v <- getattr_value code ;; iadd (JStr m) (nl ++ "ErrorCode:" ++ v))
    AttributeError
    (iadd (JStr m) (nl ++ "ErrorCode:" ++ format_code py_repr code))
  = Ok (JStr (m ++ nl ++ "ErrorCode:" ++ format_code py_repr code)).
Proof. intros m [c|v]; reflexivity. Qed.

Lemma entry_lines : forall extra m,
  for_each
    (fun m kv =>
       iadd m (nl ++ fst kv ++ ":" ++ format_text py_repr (snd kv)))
    extra (JStr m)
  = Ok (JStr (m ++ lines (format_text py_repr) extra)).
Proof.
  induction extra as [|[k v] extra IH]; intros m; simpl.
  - now rewrite append_empty_r.
  - rewrite IH. do 2 f_equal.
    rewrite append_assoc. simpl. do 2 f_equal.
    now rewrite !append_assoc.
Qed.

Lemma decorate_str : forall m code extra,
  decorate py_repr (JStr m) code extra
  = Ok (JStr (m ++ (nl ++ "ErrorCode:" ++ format_code py_repr code)
                ++ lines (format_text py_repr) extra)).
Proof.
  intros. unfold decorate. rewrite code_line. simpl bind.
  rewrite entry_lines. now rewrite append_assoc.
Qed.

End Decoration.

Lemma decode_error_inv : forall py_repr lim r msg ty kw err,
  _decode_error py_repr lim (Some r) msg ty kw = Ok err ->
  exists st code t m,
    decode_body r msg = Ok st
    /\ classify (d_error_code st) ty = Ok (code, t)
    /\ decorate py_repr (d_error_message st) code (d_additional_data st) = Ok m
    /\ err = set_code_info (new_error py_repr lim t m r kw) code
               (d_additional_data st).
Proof.
  intros py_repr lim r msg ty kw err H. simpl in H.
  apply bind_Ok in H. destruct H as [st [Hst H]].
  apply bind_Ok in H. destruct H as [[code t] [Hct H]].
  apply bind_Ok in H. destruct H as [m [Hm H]].
  injection H as <-. exists st, code, t, m. auto.
Qed.

Lemma truthy_decorated : forall m a b,
  truthy (JStr (m ++ (nl ++ a) ++ b)) = true.
Proof. intros [|x m] a b; reflexivity. Qed.

(** With a string for decoded message, [_decode_error] returns, and this
    is the error it returns: its message is the decorated message unless
    the constructor found an OData v4 error in the body. *)
Lemma decode_error_str : forall py_repr lim r msg ty kw st m code t,
  decode_body r msg = Ok st ->
  d_error_message st = JStr m ->
  classify (d_error_code st) ty = Ok (code, t) ->
  exists err,
    _decode_error py_repr lim (Some r) msg ty kw = Ok err
    /\ exc_type err = t
    /\ error_code err = code
    /\ additional_info err = d_additional_data st
    /\ message err
       = match odata_v4_error r with
         | Some text => text
         | None =>
             m ++ (nl ++ "ErrorCode:" ++ format_code py_repr code)
               ++ lines (format_text py_repr) (d_additional_data st)
         end.
Proof.
  intros py_repr lim r msg ty kw st m code t Hst Hm Hct.
  eexists. split.
  - simpl. rewrite Hst. simpl bind. rewrite Hct. simpl bind.
    rewrite Hm, decorate_str. reflexivity.
  - cbn [set_code_info exc_type error_code additional_info message fst snd].
    repeat split. unfold new_error. cbn [message].
    destruct (odata_v4_error r); [reflexivity|].
    rewrite truthy_decorated. reflexivity.
Qed.

(** C1.  Classification by wire code.  For a code string [s] that is a
    value of the [TableErrorCode] enumeration, classification returns the
    member with that value and the exception class of the kind documented
    for [s] (ModifiedConflict, AuthFailure, NotFound, AlreadyExists by the
    four fixed sets, Generic for every other member); for any other string
    it returns the Generic class and keeps [s] itself as the code.  The
    error [_decode_error] returns, when the caller chose no error type,
    carries exactly that class and that code, and it does return whenever
    the decoded message is a string. *)
Theorem classification_assigns_documented_kind :
  forall s,
    (if is_wire_code s
     then exists c t,
         value c = s
         /\ classify (JStr s) None = Ok (Member c, t)
         /\ kind_of t = documented_kind s
     else classify (JStr s) None = Ok (Raw (JStr s), HttpResponseError))
    /\ forall py_repr lim response error_message kw st,
        decode_body response error_message = Ok st ->
        d_error_code st = JStr s ->
        (forall err,
            _decode_error py_repr lim (Some response) error_message None kw
            = Ok err ->
            classify (JStr s) None = Ok (error_code err, exc_type err))
        /\ (forall m,
               d_error_message st = JStr m ->
               exists err,
                 _decode_error py_repr lim (Some response) error_message
                   None kw = Ok err).
Proof.
  intros s. split.
  - destruct (is_wire_code s) eqn:W.
    + destruct (call_wire_code s W) as [c [<- _]].
      destruct (classify_member c) as [t [H1 H2]]. eauto.
    + now apply classify_unknown.
  - intros py_repr lim response msg kw st Hst Hs. split.
    + intros err H. apply decode_error_inv in H.
      destruct H as [st' [code [t [m [Hst' [Hct [_ ->]]]]]]].
      rewrite Hst in Hst'. injection Hst' as <-.
      rewrite Hs in Hct. rewrite Hct. reflexivity.
    + intros m Hm.
      destruct (classify_total (d_error_code st) None) as [code [t Hct]].
      destruct (decode_error_str py_repr lim response msg None kw st m
                  code t Hst Hm Hct) as [err [E _]].
      eauto.
Qed.

(** The header code TableNotFound, on a response whose body cannot be
    parsed, is classified as a not-found error. *)
Lemma classification_witness :
  exists err,
    _decode_error repr0 4300 (Some unparsable_response) (JStr "Not Found")
      None no_kwargs = Ok err
    /\ exc_type err = ResourceNotFoundError
    /\ error_code err = Member table_not_found.
Proof.
  destruct (classification_assigns_documented_kind "TableNotFound")
    as [_ H].
  destruct (H repr0 4300 unparsable_response (JStr "Not Found") no_kwargs
              (mkDecoded (JStr "TableNotFound") (JStr "Not Found") [])
              eq_refl eq_refl) as [H1 H2].
  destruct (H2 "Not Found" eq_refl) as [err E].
  exists err. split; [exact E|].
  specialize (H1 err E).
  change (classify (JStr "TableNotFound") None)
    with (Ok (Member table_not_found, ResourceNotFoundError)) in H1.
  injection H1 as A B. split; symmetry; assumption.
Defined.

(** ** Reading the appended suffix back *)

Lemma all_chars_app : forall p a b,
  all_chars p (a ++ b) = all_chars p a && all_chars p b.
Proof.
  induction a as [|c a IH]; intros; simpl; [reflexivity|].
  now rewrite IH, andb_assoc.
Qed.

Lemma split_lines_cons : forall s, exists l ls, split_lines s = l :: ls.
Proof.
  induction s as [|c s [l [ls IH]]]; simpl; [eauto|].
  destruct (not_newline c); [rewrite IH|]; eauto.
Qed.

Lemma split_lines_one_line : forall a,
  one_line a = true -> split_lines a = [a].
Proof.
  induction a as [|c a IH]; simpl; intros H; [reflexivity|].
  apply andb_prop in H. destruct H as [Hc Ha].
  rewrite Hc, (IH Ha). reflexivity.
Qed.

Lemma split_lines_app_nl : forall a b,
  one_line a = true -> split_lines (a ++ nl ++ b) = a :: split_lines b.
Proof.
  induction a as [|c a IH]; cbn; intros b H; [reflexivity|].
  apply andb_prop in H. destruct H as [Hc Ha].
  rewrite Hc, (IH b Ha). reflexivity.
Qed.

Lemma split_colon_app : forall k v,
  all_chars not_colon k = true ->
  split_colon (k ++ String ":"%char v) = Some (k, v).
Proof.
  induction k as [|c k IH]; simpl; intros v H; [reflexivity|].
  apply andb_prop in H. destruct H as [Hc Hk].
  rewrite Hc, (IH v Hk). reflexivity.
Qed.

Section ReadBack.

Variable fmt : option string -> string.

Lemma lines_cons : forall kv extra,
  lines fmt (kv :: extra) = nl ++ (entry_line fmt kv ++ lines fmt extra).
Proof.
  intros [k v] extra. unfold lines, entry_line. cbn [fold_right fst snd].
  f_equal. rewrite !append_assoc. reflexivity.
Qed.

Lemma entry_line_one_line : forall kv,
  entry_ok fmt kv = true -> one_line (entry_line fmt kv) = true.
Proof.
  intros [k v] H. unfold entry_ok, key_ok in H. cbn [fst snd] in H.
  apply andb_prop in H. destruct H as [Hk Hv].
  apply andb_prop in Hk. destruct Hk as [Hk _].
  unfold entry_line, one_line in *. cbn [fst snd].
  rewrite !all_chars_app, Hk, Hv. reflexivity.
Qed.

Lemma split_lines_lines : forall extra x,
  one_line x = true ->
  forallb (entry_ok fmt) extra = true ->
  split_lines (x ++ lines fmt extra) = x :: map (entry_line fmt) extra.
Proof.
  induction extra as [|kv extra IH]; intros x Hx H.
  - unfold lines; cbn [fold_right map]. rewrite append_empty_r.
    now apply split_lines_one_line.
  - cbn [forallb] in H. apply andb_prop in H. destruct H as [Hkv H].
    rewrite lines_cons, (split_lines_app_nl x _ Hx). cbn [map]. f_equal.
    apply IH; auto. now apply entry_line_one_line.
Qed.

Lemma parse_entries_lines : forall extra,
  forallb (entry_ok fmt) extra = true ->
  parse_entries (map (entry_line fmt) extra) = Some (map (entry_text fmt) extra).
Proof.
  induction extra as [|[k v] extra IH]; intros H; [reflexivity|].
  cbn [forallb] in H. apply andb_prop in H. destruct H as [Hkv H].
  unfold entry_ok, key_ok in Hkv. cbn [fst snd] in Hkv.
  apply andb_prop in Hkv. destruct Hkv as [Hk _].
  apply andb_prop in Hk. destruct Hk as [_ Hk].
  cbn [map parse_entries]. rewrite (IH H).
  unfold entry_line, entry_text. cbn [fst snd].
  change (k ++ ":" ++ fmt v) with (k ++ String ":"%char (fmt v)).
  rewrite (split_colon_app k _ Hk). reflexivity.
Qed.

Lemma parse_suffix_lines : forall code extra,
  one_line code = true ->
  forallb (entry_ok fmt) extra = true ->
  parse_suffix (nl ++ "ErrorCode:" ++ code ++ lines fmt extra)
  = Some (code, map (entry_text fmt) extra).
Proof.
  intros code extra Hc H. unfold parse_suffix.
  change (nl ++ "ErrorCode:" ++ code ++ lines fmt extra)
    with ("" ++ nl ++ ("ErrorCode:" ++ code ++ lines fmt extra)).
  rewrite split_lines_app_nl by reflexivity.
  replace ("ErrorCode:" ++ code ++ lines fmt extra)
    with (("ErrorCode:" ++ code) ++ lines fmt extra)
    by (now rewrite !append_assoc).
  rewrite split_lines_lines; auto.
  cbv iota beta.
  rewrite parse_entries_lines by assumption.
  change ("ErrorCode:" ++ code) with ("ErrorCode" ++ String ":"%char code).
  rewrite split_colon_app by reflexivity. reflexivity.
Qed.

End ReadBack.

(** C2, as amended.  Whenever the decoded message is a string [m],
    [_decode_error] returns an error that carries the decoded extra data.
    Unless the exception constructor finds an OData v4 error in the body,
    whose text is then the whole message, the message of the error is [m],
    then one appended [ErrorCode:] line with the code, then one
    [key:value] line per entry of the extra data in the order of the
    mapping.  Read back line by line, the appended suffix yields the text
    of the code and the key and value text of every entry, provided the
    code text and every key and value text are free of newlines and every
    key is free of colons. *)
Theorem decorated_message_suffix :
  forall py_repr lim response error_message error_type kw st m,
    decode_body response error_message = Ok st ->
    d_error_message st = JStr m ->
    exists err,
      _decode_error py_repr lim (Some response) error_message error_type kw
      = Ok err
      /\ additional_info err = d_additional_data st
      /\ message err
         = match odata_v4_error response with
           | Some text => text
           | None =>
               m ++ nl ++ "ErrorCode:"
                 ++ format_code py_repr (error_code err)
                 ++ lines (format_text py_repr) (additional_info err)
           end
      /\ (one_line (format_code py_repr (error_code err)) = true ->
          forallb (entry_ok (format_text py_repr)) (additional_info err)
          = true ->
          parse_suffix
            (nl ++ "ErrorCode:" ++ format_code py_repr (error_code err)
               ++ lines (format_text py_repr) (additional_info err))
          = Some (format_code py_repr (error_code err),
                  map (entry_text (format_text py_repr))
                    (additional_info err))).
Proof.
  intros py_repr lim response msg ty kw st m Hst Hm.
  destruct (classify_total (d_error_code st) ty) as [code [t Hct]].
  destruct (decode_error_str py_repr lim response msg ty kw st m code t
              Hst Hm Hct) as [err [E [_ [Hc [Hi Hmsg]]]]].
  exists err. rewrite Hc, Hi. split; [exact E|]. split; [reflexivity|].
  split.
  - rewrite Hmsg. destruct (odata_v4_error response); [reflexivity|].
    now rewrite !append_assoc.
  - intros Hl H. now apply parse_suffix_lines.
Qed.

(** The parts of the decorated message on an XML error. *)
Lemma decorated_message_witness :
  exists err,
    _decode_error repr0 4300 (Some (xml_response xml_two_entries)) JNull
      None no_kwargs = Ok err
    /\ message err
       = "Bad input." ++ nl ++ "ErrorCode:InvalidInput"
           ++ nl ++ "error:None" ++ nl ++ "detail:x" ++ nl ++ "hint:y"
    /\ parse_suffix
         (nl ++ "ErrorCode:InvalidInput"
             ++ nl ++ "error:None" ++ nl ++ "detail:x" ++ nl ++ "hint:y")
       = Some ("InvalidInput",
               [("error", "None"); ("detail", "x"); ("hint", "y")]).
Proof.
  destruct (decorated_message_suffix repr0 4300
              (xml_response xml_two_entries) JNull None no_kwargs
              _ "Bad input." eq_refl eq_refl)
    as [err [E [_ [M P]]]].
  exists err. vm_compute in E. injection E as <-.
  split; [reflexivity|]. split; [exact M|]. apply P; reflexivity.
Defined.

(** C2, as stated, fails: no way of reading a decorated message back,
    even one that is told the message before decoration, recovers the
    code and the extra data of every decoded error.  A value that spans
    two lines and a pair of one-line entries are appended as the same
    text. *)
Lemma suffix_does_not_determine_extra_data :
  ~ exists parse : string -> string
                   -> ErrorCode * list (string * option string),
      forall response m err,
        _decode_error repr0 4300 (Some response) (JStr m) None no_kwargs
        = Ok err ->
        parse m (message err) = (error_code err, additional_info err).
Proof.
  intros [parse H].
  pose proof (H (xml_response xml_two_line_value) "") as H1.
  pose proof (H (xml_response xml_two_entries) "") as H2.
  vm_compute in H1, H2.
  specialize (H1 _ eq_refl). specialize (H2 _ eq_refl).
  simpl in H1, H2. rewrite H1 in H2. discriminate H2.
Qed.

(** ** What the two patterns match *)

Lemma repeat_class_spec : forall p most least k s,
  repeat_class p least most k s = true <->
  exists pre post,
    s = pre ++ post
    /\ (least <= String.length pre <= most)%nat
    /\ all_chars p pre = true
    /\ k post = true.
Proof.
  induction most as [|most IH]; intros least k s.
  - simpl. split.
    + intros H. apply andb_prop in H. destruct H as [Hlo Hk].
      apply Nat.eqb_eq in Hlo. exists "", s. simpl. repeat split; auto; lia.
    + intros [pre [post [-> [Hlen [_ Hk]]]]].
      destruct pre; simpl in *; [|lia].
      rewrite Hk. replace least with 0%nat by lia. reflexivity.
  - destruct s as [|c rest]; simpl.
    + split.
      * intros H. apply andb_prop in H. destruct H as [Hlo Hk].
        apply Nat.eqb_eq in Hlo. exists "", "". simpl.
        repeat split; auto; lia.
      * intros [pre [post [E [Hlen [_ Hk]]]]].
        destruct pre; simpl in *; [|discriminate].
        subst post. rewrite Hk. replace least with 0%nat by lia. reflexivity.
    + split.
      * intros H. apply orb_prop in H. destruct H as [H|H].
        -- apply andb_prop in H. destruct H as [Hc H].
           apply IH in H. destruct H as [pre [post [-> [Hlen [Hp Hk]]]]].
           exists (String c pre), post. simpl. rewrite Hc, Hp.
           repeat split; auto; lia.
        -- apply andb_prop in H. destruct H as [Hlo Hk].
           apply Nat.eqb_eq in Hlo. exists "", (String c rest). simpl.
           repeat split; auto; lia.
      * intros [pre [post [E [Hlen [Hp Hk]]]]].
        destruct pre as [|c' pre]; simpl in *.
        -- subst post. rewrite Hk. replace least with 0%nat by lia.
           simpl. apply orb_true_r.
        -- injection E as <- ->. apply andb_prop in Hp.
           destruct Hp as [Hc Hp]. rewrite Hc. simpl.
           apply orb_true_intro. left. apply IH.
           exists pre, post. repeat split; auto; lia.
Qed.

Lemma at_dollar_cases : forall s,
  at_dollar s = true <-> s = "" \/ s = nl.
Proof.
  intros [|c [|d r]]; simpl; split; auto.
  - intros H. right. apply Nat.eqb_eq in H.
    rewrite <- (ascii_nat_embedding c), H. reflexivity.
  - intros [H|H]; [discriminate|]. injection H as ->. reflexivity.
  - discriminate.
  - intros [H|H]; discriminate.
Qed.

Lemma chomp_app_nl : forall s, chomp (s ++ nl) = s.
Proof.
  induction s as [|c s IH]; [reflexivity|].
  change (String c s ++ nl) with (String c (s ++ nl)).
  cbn [chomp]. rewrite IH. destruct s; reflexivity.
Qed.

Lemma chomp_cases : forall s, s = chomp s \/ s = chomp s ++ nl.
Proof.
  induction s as [|c s IH]; [now left|].
  destruct s as [|d r].
  - cbn [chomp]. destruct (not_newline c) eqn:N; [now left|right].
    unfold not_newline in N. apply negb_false_iff, Nat.eqb_eq in N.
    rewrite <- (ascii_nat_embedding c), N. reflexivity.
  - change (chomp (String c (String d r)))
      with (String c (chomp (String d r))).
    destruct IH as [IH|IH]; [left|right].
    + now rewrite <- IH.
    + change (String c (chomp (String d r)) ++ nl)
        with (String c (chomp (String d r) ++ nl)).
      now rewrite <- IH.
Qed.

Lemma chomp_one_line : forall s, one_line s = true -> chomp s = s.
Proof.
  induction s as [|c s IH]; [reflexivity|].
  intros H. unfold one_line in H. cbn [all_chars] in H.
  apply andb_prop in H. destruct H as [Hc Hs].
  destruct s as [|d r].
  - cbn [chomp]. now rewrite Hc.
  - change (chomp (String c (String d r)))
      with (String c (chomp (String d r))).
    now rewrite (IH Hs).
Qed.

Lemma chomp_length : forall s, (String.length (chomp s) <= String.length s)%nat.
Proof.
  intros s. destruct (chomp_cases s) as [E|E]; rewrite E at 2.
  - lia.
  - rewrite length_append. lia.
Qed.

Lemma all_chars_impl : forall (p q : ascii -> bool) s,
  (forall c, p c = true -> q c = true) ->
  all_chars p s = true -> all_chars q s = true.
Proof.
  intros p q s Hpq. induction s as [|c s IH]; simpl; auto.
  intros H. apply andb_prop in H. destruct H as [Hc Hs].
  rewrite (Hpq c Hc), (IH Hs). reflexivity.
Qed.

Lemma is_alnum_not_newline : forall c, is_alnum c = true -> not_newline c = true.
Proof.
  intros c H. unfold not_newline.
  destruct (nat_of_ascii c =? 10)%nat eqn:E; [|reflexivity].
  apply Nat.eqb_eq in E.
  unfold is_alnum, is_letter, is_digit, in_range in H. rewrite E in H.
  discriminate H.
Qed.

Lemma storage_grammar_alnum : forall s,
  storage_grammar s = true ->
  all_chars is_alnum s = true /\ (3 <= String.length s <= 63)%nat.
Proof.
  intros [|c r] H; [discriminate|]. unfold storage_grammar in H.
  apply andb_prop in H. destruct H as [H H4].
  apply andb_prop in H. destruct H as [H H3].
  apply andb_prop in H. destruct H as [H1 H2].
  apply Nat.leb_le in H3, H4.
  cbn [all_chars String.length]. unfold is_alnum at 1. rewrite H1, H2.
  split; [reflexivity | lia].
Qed.

(** The storage pattern matches a name exactly when the name, without a
    newline that ends it, follows the storage grammar. *)
Lemma storage_match : forall name,
  re_match _STORAGE_VALID_TABLE name = storage_grammar (chomp name).
Proof.
  intros name. apply eq_true_iff_eq. unfold _STORAGE_VALID_TABLE.
  cbn [re_match cls lo hi]. rewrite repeat_class_spec. split.
  - intros [pre1 [post1 [-> [Hlen1 [Hp1 H]]]]].
    apply repeat_class_spec in H.
    destruct H as [pre2 [post2 [-> [Hlen2 [Hp2 Hd]]]]].
    destruct pre1 as [|c [|d r]]; simpl in Hlen1; try lia.
    simpl in Hp1. rewrite andb_true_r in Hp1.
    assert (G : storage_grammar (String c pre2) = true).
    { unfold storage_grammar. rewrite Hp1, Hp2. cbn [andb].
      apply andb_true_intro. split; apply Nat.leb_le; lia. }
    apply at_dollar_cases in Hd. destruct Hd as [-> | ->].
    + rewrite append_empty_r. simpl append. rewrite chomp_one_line; auto.
      apply storage_grammar_alnum in G. destruct G as [G _].
      unfold one_line. eapply all_chars_impl; [|exact G].
      exact is_alnum_not_newline.
    + change (String c "" ++ pre2 ++ nl) with (String c (pre2 ++ nl)).
      change (String c (pre2 ++ nl)) with (String c pre2 ++ nl).
      now rewrite chomp_app_nl.
  - intros G.
    destruct (chomp name) as [|c r] eqn:E; [discriminate|].
    pose proof G as G'. unfold storage_grammar in G'.
    apply andb_prop in G'. destruct G' as [G' H4].
    apply andb_prop in G'. destruct G' as [G' H3].
    apply andb_prop in G'. destruct G' as [H1 H2].
    apply Nat.leb_le in H3, H4.
    exists (String c ""), (if String.eqb name (String c r) then r else r ++ nl).
    assert (N : name = String c r \/ name = String c r ++ nl)
      by (rewrite <- E; apply chomp_cases).
    split; [|split; [simpl; lia|split; [simpl; now rewrite H1|]]].
    + destruct N as [N|N].
      * rewrite N, String.eqb_refl. reflexivity.
      * destruct (String.eqb_spec name (String c r)) as [Q|Q]; [|exact N].
        exfalso. rewrite Q in N.
        apply (f_equal String.length) in N.
        rewrite length_append in N. simpl in N. lia.
    + apply repeat_class_spec.
      exists r, (if String.eqb name (String c r) then "" else nl).
      destruct (String.eqb name (String c r));
        repeat split; auto; try lia.
      now rewrite append_empty_r.
Qed.

Lemma split_last_app : forall front l,
  split_last (front ++ String l "") = Some (front, l).
Proof.
  induction front as [|c front IH]; intros l; [reflexivity|].
  simpl. now rewrite IH.
Qed.

Lemma split_last_inv : forall s front l,
  split_last s = Some (front, l) -> s = front ++ String l "".
Proof.
  induction s as [|c s IH]; intros front l H; simpl in H; [discriminate|].
  destruct (split_last s) as [[f x]|] eqn:E.
  - injection H as <- <-. simpl. f_equal. now apply IH.
  - injection H as <- <-. destruct s as [|d s]; [reflexivity|].
    simpl in E. destruct (split_last s) as [[f x]|]; discriminate.
Qed.

Lemma cosmos_grammar_spec : forall name,
  cosmos_grammar name = true <->
  exists front l,
    name = front ++ String l ""
    /\ (String.length front <= 253)%nat
    /\ all_chars cosmos_char front = true
    /\ cosmos_last_char l = true.
Proof.
  intros name. unfold cosmos_grammar. split.
  - destruct (split_last name) as [[front l]|] eqn:E; [|discriminate].
    intros H. apply andb_prop in H. destruct H as [H H3].
    apply andb_prop in H. destruct H as [H1 H2]. apply Nat.leb_le in H1.
    exists front, l. split; [now apply split_last_inv | auto].
  - intros [front [l [-> [H1 [H2 H3]]]]].
    rewrite split_last_app, H2, H3. apply Nat.leb_le in H1.
    now rewrite H1.
Qed.

(** The Cosmos pattern matches a name exactly when the name follows the
    Cosmos grammar, or does so without the newline that ends it. *)
Lemma cosmos_match : forall name,
  re_match _COSMOS_VALID_TABLE name
  = cosmos_grammar name || cosmos_grammar (chomp name).
Proof.
  intros name. apply eq_true_iff_eq. unfold _COSMOS_VALID_TABLE.
  cbn [re_match cls lo hi]. rewrite repeat_class_spec, orb_true_iff.
  rewrite !cosmos_grammar_spec. split.
  - intros [pre1 [post1 [-> [Hlen1 [Hp1 H]]]]].
    apply repeat_class_spec in H.
    destruct H as [pre2 [post2 [-> [Hlen2 [Hp2 Hd]]]]].
    destruct pre2 as [|l [|d r]]; simpl in Hlen2; try lia.
    simpl in Hp2. rewrite andb_true_r in Hp2.
    apply at_dollar_cases in Hd. destruct Hd as [-> | ->].
    + left. exists pre1, l. repeat split; auto; lia.
    + right. exists pre1, l.
      replace (pre1 ++ String l "" ++ nl) with ((pre1 ++ String l "") ++ nl)
        by (now rewrite append_assoc).
      rewrite chomp_app_nl. repeat split; auto; lia.
  - intros H.
    assert (G : exists front l post,
               name = front ++ String l "" ++ post
               /\ (String.length front <= 253)%nat
               /\ all_chars cosmos_char front = true
               /\ cosmos_last_char l = true
               /\ at_dollar post = true).
    { destruct H as [[front [l [E R]]] | [front [l [E R]]]].
      - exists front, l, "". rewrite E. tauto.
      - destruct (chomp_cases name) as [N|N].
        + exists front, l, "". rewrite N, E. tauto.
        + exists front, l, nl. rewrite N, E, append_assoc. tauto. }
    destruct G as [front [l [post [-> [H1 [H2 [H3 H4]]]]]]].
    exists front, (String l "" ++ post). repeat split; auto; try lia.
    apply repeat_class_spec. exists (String l ""), post.
    simpl. rewrite H3. repeat split; auto.
Qed.

(** A name of 255 characters or more passes the Cosmos check only when it
    has exactly 255 characters and the last one is a newline. *)
Lemma cosmos_long_name : forall name,
  (255 <= String.length name)%nat ->
  re_match _COSMOS_VALID_TABLE name = true ->
  String.length name = 255%nat /\ name = chomp name ++ nl.
Proof.
  intros name L M. rewrite cosmos_match in M.
  assert (B : forall s, cosmos_grammar s = true -> (String.length s <= 254)%nat).
  { intros s G. apply cosmos_grammar_spec in G.
    destruct G as [front [l [-> [H _]]]].
    rewrite length_append. simpl. lia. }
  apply orb_prop in M. destruct M as [M|M].
  - apply B in M. lia.
  - apply B in M. destruct (chomp_cases name) as [N|N].
    + rewrite <- N in M. lia.
    + split; [|exact N]. rewrite N in L |- *.
      rewrite length_append in *. simpl in *. lia.
Qed.

(** ** The name validator *)

Lemma validate_storage_signature : forall decoded_error table_name,
  code_is (error_code decoded_error) "InvalidResourceName" = true ->
  str_in "The specified resource name contains invalid characters"
    (message decoded_error) = true ->
  _validate_tablename_error decoded_error table_name
  = _validate_storage_tablename table_name.
Proof.
  intros e name Hc Hm. unfold _validate_tablename_error.
  rewrite Hc, Hm. reflexivity.
Qed.

Lemma validate_storage_grammar : forall table_name,
  _validate_storage_tablename table_name
  = if storage_grammar (chomp table_name) then Ok tt
    else Raise (ValueError storage_message).
Proof.
  intros name. unfold _validate_storage_tablename.
  rewrite storage_match. now destruct (storage_grammar (chomp name)).
Qed.

Lemma validate_cosmos_grammar : forall table_name,
  _validate_cosmos_tablename table_name
  = if cosmos_grammar table_name || cosmos_grammar (chomp table_name)
    then Ok tt
    else Raise (ValueError cosmos_message).
Proof.
  intros name. unfold _validate_cosmos_tablename.
  rewrite cosmos_match.
  now destruct (cosmos_grammar name || cosmos_grammar (chomp name)).
Qed.

(** What [_process_table_error] raises once the error is decoded. *)
Lemma process_decoded : forall py_repr lim storage_error r m e table_name,
  se_response storage_error = Some r ->
  se_message storage_error = Some m ->
  _decode_error py_repr lim r m None (mkKwargs None) = Ok e ->
  _process_table_error py_repr lim storage_error table_name
  = match table_name with
    | Some name =>
        if String.eqb name "" then raise_decoded_error e
        else match _validate_tablename_error e name with
             | Ok _ => raise_decoded_error e
             | Raise x => raise_exn x
             end
    | None => raise_decoded_error e
    end.
Proof.
  intros py_repr lim se r m e name Hr Hm He. unfold _process_table_error.
  rewrite Hr, Hm. simpl bind. rewrite He.
  destruct name as [name|]; [|reflexivity].
  destruct (String.eqb name ""); reflexivity.
Qed.

(** The storage check lets a name through when a newline follows an
    otherwise valid name. *)
Lemma storage_accepts_trailing_newline :
  _validate_storage_tablename ("abc" ++ nl) = Ok tt.
Proof. reflexivity. Qed.

(** C3, as amended.  For a decoded error with code InvalidResourceName
    whose message contains "The specified resource name contains invalid
    characters": a table name of length 2, or one that has a character
    other than a letter or digit of ASCII before its final newline if it
    ends with one, makes the validator raise the storage-grammar
    [ValueError]; a name that follows the storage grammar makes it return,
    and [_process_table_error] then raises the decoded error itself. *)
Theorem storage_name_validation :
  forall decoded_error table_name,
    code_is (error_code decoded_error) "InvalidResourceName" = true ->
    str_in "The specified resource name contains invalid characters"
      (message decoded_error) = true ->
    (String.length table_name = 2%nat
     \/ all_chars is_alnum (chomp table_name) = false ->
     _validate_tablename_error decoded_error table_name
     = Raise (ValueError storage_message))
    /\ (storage_grammar table_name = true ->
        _validate_tablename_error decoded_error table_name = Ok tt
        /\ forall py_repr lim storage_error r m,
            se_response storage_error = Some r ->
            se_message storage_error = Some m ->
            _decode_error py_repr lim r m None (mkKwargs None)
            = Ok decoded_error ->
            _process_table_error py_repr lim storage_error (Some table_name)
            = raise_decoded_error decoded_error).
Proof.
  intros e name Hc Hm.
  rewrite (validate_storage_signature e name Hc Hm), validate_storage_grammar.
  split.
  - intros H.
    destruct (storage_grammar (chomp name)) eqn:G; [exfalso|reflexivity].
    apply storage_grammar_alnum in G. destruct G as [G1 G2].
    destruct H as [H|H].
    + pose proof (chomp_length name). lia.
    + congruence.
  - intros G.
    assert (E : chomp name = name).
    { apply chomp_one_line. apply storage_grammar_alnum in G.
      destruct G as [G _]. unfold one_line.
      eapply all_chars_impl; [|exact G]. exact is_alnum_not_newline. }
    rewrite E, G. split; [reflexivity|].
    intros py_repr lim se r m Hr Hmsg Hd.
    rewrite (process_decoded py_repr lim se r m e (Some name) Hr Hmsg Hd).
    rewrite (validate_storage_signature e name Hc Hm),
      validate_storage_grammar, E, G.
    destruct (String.eqb name ""); reflexivity.
Qed.

(** The validator on the error decoded from the storage service's
    complaint: a two-letter name is refused, a well-formed one is not. *)
Lemma storage_name_validation_witness :
  exists err,
    _decode_error repr0 4300 (Some invalid_name_response_exact) JNull None
      (mkKwargs None) = Ok err
    /\ _validate_tablename_error err "ab" = Raise (ValueError storage_message)
    /\ _validate_tablename_error err "a-b" = Raise (ValueError storage_message)
    /\ _validate_tablename_error err "mytable1" = Ok tt
    /\ _process_table_error repr0 4300
         (storage_error_of invalid_name_response_exact) (Some "mytable1")
       = raise_decoded_error err.
Proof.
  eexists. split; [vm_compute; reflexivity|].
  match goal with
  | |- _validate_tablename_error ?e _ = _ /\ _ =>
      pose proof (storage_name_validation e "ab" eq_refl eq_refl) as [A _];
      pose proof (storage_name_validation e "a-b" eq_refl eq_refl) as [B _];
      pose proof (storage_name_validation e "mytable1" eq_refl eq_refl)
        as [_ C]
  end.
  split; [apply A; left; reflexivity|].
  split; [apply B; right; reflexivity|].
  destruct (C eq_refl) as [C1 C2].
  split; [exact C1|].
  apply (C2 repr0 4300 _ (Some invalid_name_response_exact)
           (JStr "Bad Request")); reflexivity.
Defined.

(** C3, as stated, fails: the decoded message below contains "specified
    resource name contains invalid characters" and the code is
    InvalidResourceName, yet the two-letter name is not refused, because
    the validator looks for the sentence with its leading "The". *)
Lemma validator_needs_the_exact_sentence :
  exists err,
    _decode_error repr0 4300 (Some invalid_name_response) JNull None
      no_kwargs = Ok err
    /\ code_is (error_code err) "InvalidResourceName" = true
    /\ str_in "specified resource name contains invalid characters"
         (message err) = true
    /\ String.length "ab" = 2%nat
    /\ _validate_tablename_error err "ab" = Ok tt.
Proof.
  eexists. split; [vm_compute; reflexivity|].
  repeat split; reflexivity.
Qed.

(** C7.  The Cosmos check on a name of 255 characters.  The decoded
    error has code BadRequest and the message "The input name is
    invalid."; [name_255] has 255 characters, none of them forbidden, and
    ends with a newline.  The validator returns without raising, and
    [_process_table_error] raises the decoded error and no [ValueError]. *)
Theorem cosmos_accepts_255_characters :
  _decode_error repr0 4300 (Some cosmos_response) JNull None no_kwargs
  = Ok cosmos_bad_request
  /\ code_is (error_code cosmos_bad_request) "BadRequest" = true
  /\ str_in "The input name is invalid." (message cosmos_bad_request) = true
  /\ String.length name_255 = 255%nat
  /\ cosmos_grammar name_255 = false
  /\ _validate_tablename_error cosmos_bad_request name_255 = Ok tt
  /\ _process_table_error repr0 4300 (storage_error_of cosmos_response)
       (Some name_255)
     = raise_decoded_error cosmos_bad_request.
Proof. repeat split; vm_compute; reflexivity. Qed.

(** Apart from that case the Cosmos check refuses every name of 255
    characters or more. *)
Lemma cosmos_refuses_long_names : forall decoded_error table_name,
  code_is (error_code decoded_error) "BadRequest" = true ->
  str_in "The input name is invalid." (message decoded_error) = true ->
  (255 <= String.length table_name)%nat ->
  String.length table_name <> 255%nat \/ table_name <> chomp table_name ++ nl ->
  _validate_tablename_error decoded_error table_name
  = Raise (ValueError cosmos_message).
Proof.
  intros e name Hc Hm L N.
  assert (V : _validate_tablename_error e name
              = _validate_cosmos_tablename name).
  { unfold _validate_tablename_error.
    destruct (error_code e) as [c|v].
    - destruct c; try discriminate Hc.
    - simpl in Hc. destruct v; try discriminate Hc.
      apply String.eqb_eq in Hc. subst s. simpl. now rewrite Hm. }
  rewrite V. unfold _validate_cosmos_tablename.
  destruct (re_match _COSMOS_VALID_TABLE name) eqn:M; [exfalso|reflexivity].
  destruct (cosmos_long_name name L M) as [A B]. tauto.
Qed.

(** ** JSON bodies *)

(** C4.  A JSON error body with a field next to [code] and [message].
    The envelope of [json_with_sibling] has the fields [code], [message]
    (with its [value]) and [innererror]; [_decode_error] raises
    [AttributeError] on it, whatever its other arguments, and
    [_process_table_error] then raises the error it was given.  Nothing is
    added to the extra data. *)
Theorem json_sibling_field_raises :
  (forall py_repr lim error_message error_type kw,
      _decode_error py_repr lim (Some json_with_sibling) error_message
        error_type kw = Raise AttributeError)
  /\ (forall py_repr lim table_name,
         _process_table_error py_repr lim (storage_error_of json_with_sibling)
           table_name
         = raise_storage_error (storage_error_of json_with_sibling)).
Proof. split; intros; reflexivity. Qed.

(** ** Responses without a message *)

(** C5.  Decoding without a message.  With no message supplied
    ([error_message] left at [None]) and a body that cannot be parsed, or
    no body at all, [_decode_error] raises [TypeError] instead of
    returning an error. *)
Theorem decode_without_message_raises :
  forall py_repr lim header reason odata error_type kw,
    _decode_error py_repr lim
      (Some (mkResponse header reason odata (Raise DecodeError))) JNull
      error_type kw = Raise TypeError
    /\ _decode_error py_repr lim
         (Some (mkResponse header reason odata (Ok (Json JNull)))) JNull
         error_type kw = Raise TypeError.
Proof.
  intros py_repr lim header reason odata ty kw.
  destruct (classify_total (of_text header) ty) as [code [t H]].
  split; simpl; rewrite H; simpl; destruct code; reflexivity.
Qed.

(** With a message supplied, an unparsable body is survived: the code is
    the header's, the extra data is empty, and the message, with no
    OData v4 error to replace it, is the one supplied followed by the
    code line. *)
Lemma decode_unparsable_body : forall py_repr lim header reason m ty kw,
  exists err,
    _decode_error py_repr lim
      (Some (mkResponse header reason None (Raise DecodeError))) (JStr m)
      ty kw
    = Ok err
    /\ additional_info err = []
    /\ message err
       = m ++ nl ++ "ErrorCode:" ++ format_code py_repr (error_code err)
    /\ (ty = None -> forall c, header = Some (value c) ->
        error_code err = Member c).
Proof.
  intros py_repr lim header reason m ty kw.
  destruct (classify_total (of_text header) ty) as [code [t H]].
  destruct (decode_error_str py_repr lim
              (mkResponse header reason None (Raise DecodeError)) (JStr m)
              ty kw
              (mkDecoded (of_text header) (JStr m) []) m code t
              eq_refl eq_refl H) as [err [E [_ [Hc [Hi Hm]]]]].
  exists err. split; [exact E|]. split; [exact Hi|]. split.
  - rewrite Hm, Hc.
    cbn [odata_v4_error d_additional_data lines fold_right].
    f_equal. apply append_empty_r.
  - intros -> c ->. rewrite Hc.
    change (of_text (Some (value c))) with (JStr (value c)) in H.
    destruct (classify_member c) as [t' [H' _]].
    rewrite H' in H. now injection H as <- _.
Qed.

(** ** Errors without a response *)

(** C10.  An error object without a [response] attribute is raised again
    as it is, whatever the table name: nothing is decoded, classified or
    validated. *)
Theorem error_without_response_is_reraised :
  forall py_repr lim storage_error table_name,
    se_response storage_error = None ->
    _process_table_error py_repr lim storage_error table_name
    = raise_storage_error storage_error.
Proof.
  intros py_repr lim se name H. unfold _process_table_error.
  rewrite H. reflexivity.
Qed.

(** The same happens when the attribute is there and holds [None], and
    when the error has no [message] attribute. *)
Lemma error_with_none_response_is_reraised :
  forall py_repr lim storage_error table_name,
    se_response storage_error = Some None
    \/ se_message storage_error = None ->
    _process_table_error py_repr lim storage_error table_name
    = raise_storage_error storage_error.
Proof.
  intros py_repr lim [r m] name [H | H]; simpl in H; subst;
    unfold _process_table_error; simpl.
  - destruct m; reflexivity.
  - destruct r; reflexivity.
Qed.

Lemma error_without_response_witness :
  se_response error_without_response = None
  /\ _process_table_error repr0 4300 error_without_response (Some "a/b")
     = raise_storage_error error_without_response.
Proof.
  split; [reflexivity|].
  apply (error_without_response_is_reraised repr0 4300
           error_without_response (Some "a/b")).
  reflexivity.
Defined.

(** ** JSON envelopes in general *)

Lemma decode_json_info_exn : forall error_body st info e,
  decode_json_info error_body st info = Raise e ->
  exn_eqb e DecodeError = false.
Proof.
  intros b st info e. unfold decode_json_info, getitem.
  repeat match goal with
         | |- context [if ?c then _ else _] => destruct c
         | |- context [match ?x with _ => _ end] => destruct x; simpl
         end;
    intros H; try discriminate H; injection H as <-; reflexivity.
Qed.

Lemma for_each_json_raises : forall error_body k infos st,
  In (JStr k) infos ->
  k <> "code" -> k <> "message" ->
  exists e,
    for_each (decode_json_info error_body) infos st = Raise e
    /\ exn_eqb e DecodeError = false.
Proof.
  intros b k infos. induction infos as [|x infos IH]; intros st HIn Hc Hm.
  - destruct HIn.
  - simpl. destruct (decode_json_info b st x) as [st'|e] eqn:E.
    + simpl. destruct HIn as [-> | HIn]; [|now apply IH].
      unfold decode_json_info in E. simpl in E.
      apply String.eqb_neq in Hc, Hm. rewrite Hc, Hm in E. discriminate E.
    + simpl. exists e. split; [reflexivity|].
      eapply decode_json_info_exn; eauto.
Qed.

(** Any field of the envelope other than [code] and [message] makes
    [_decode_error] raise. *)
Lemma json_sibling_never_decoded :
  forall py_repr lim header reason odata fields envelope k error_message
    ty kw,
    assoc "odata.error" fields = Some (JObj envelope) ->
    In k (map fst envelope) ->
    k <> "code" -> k <> "message" ->
    exists e,
      _decode_error py_repr lim
        (Some (mkResponse header reason odata (Ok (Json (JObj fields)))))
        error_message ty kw = Raise e.
Proof.
  intros py_repr lim header reason odata fields env k msg ty kw Hf HIn Hc
    Hm.
  assert (I : In (JStr k) (map (fun kv => JStr (fst kv)) env)).
  { apply in_map_iff in HIn. destruct HIn as [kv [<- HIn]].
    apply in_map_iff. exists kv. auto. }
  destruct (for_each_json_raises (JObj fields) k _
              (mkDecoded (of_text header) msg []) I Hc Hm) as [e [E N]].
  exists e. unfold _decode_error, decode_body.
  cbn [deserialize_from_http_generics x_ms_error_code bind].
  rewrite Hf. cbn [py_iter bind]. rewrite E.
  unfold try_except. rewrite N. reflexivity.
Qed.

Lemma assoc_has_key : forall k d v,
  assoc k d = Some v -> has_key k d = true.
Proof.
  intros k d v. induction d as [|[k' v'] d IH]; simpl; [discriminate|].
  rewrite (String.eqb_sym k' k).
  destruct (String.eqb k k'); simpl; auto.
Qed.

Lemma for_each_code_and_message : forall fields envelope c mobj v,
  assoc "odata.error" fields = Some (JObj envelope) ->
  assoc "code" envelope = Some c ->
  assoc "message" envelope = Some mobj ->
  getitem mobj "value" = Ok v ->
  forall l st,
    forallb (fun kv => String.eqb (fst kv) "code"
                       || String.eqb (fst kv) "message") l = true ->
    for_each (decode_json_info (JObj fields))
      (map (fun kv => JStr (fst kv)) l) st
    = Ok (mkDecoded
            (if has_key "code" l then c else d_error_code st)
            (if has_key "message" l then v else d_error_message st)
            (d_additional_data st)).
Proof.
  intros fields env c mobj v Hf Hc Hm Hv.
  induction l as [|[k x] l IH]; intros st H.
  - destruct st; reflexivity.
  - cbn [forallb fst] in H. apply andb_prop in H. destruct H as [Hk H].
    cbn [map for_each fst]. unfold decode_json_info at 1. cbn [eq_str].
    unfold has_key. cbn [existsb fst]. fold (has_key "code" l).
    fold (has_key "message" l).
    destruct (String.eqb k "code") eqn:K1.
    + unfold getitem at 1. rewrite Hf. cbn [bind].
      unfold getitem at 1. rewrite Hc. cbn [bind].
      rewrite (IH _ H). cbn [d_error_code d_error_message d_additional_data].
      apply String.eqb_eq in K1. subst k. cbn [String.eqb orb].
      destruct (has_key "code" l); reflexivity.
    + cbn [orb] in Hk. rewrite Hk.
      unfold getitem at 1. rewrite Hf. cbn [bind].
      unfold getitem at 1. rewrite Hm. cbn [bind]. rewrite Hv. cbn [bind].
      rewrite (IH _ H). cbn [d_error_code d_error_message d_additional_data].
      cbn [orb]. destruct (has_key "message" l); reflexivity.
Qed.

(** An envelope that holds [code] and [message] (with its [value]) and
    nothing else decodes to exactly that code and that message. *)
Lemma json_code_and_message :
  forall header reason odata fields envelope c mobj v error_message,
    assoc "odata.error" fields = Some (JObj envelope) ->
    forallb (fun kv => String.eqb (fst kv) "code"
                       || String.eqb (fst kv) "message") envelope = true ->
    assoc "code" envelope = Some c ->
    assoc "message" envelope = Some mobj ->
    getitem mobj "value" = Ok v ->
    decode_body (mkResponse header reason odata (Ok (Json (JObj fields))))
      error_message
    = Ok (mkDecoded c v []).
Proof.
  intros header reason odata fields env c mobj v msg Hf Hall Hc Hm Hv.
  unfold decode_body.
  cbn [deserialize_from_http_generics x_ms_error_code bind].
  rewrite Hf. cbn [py_iter bind].
  rewrite (for_each_code_and_message fields env c mobj v Hf Hc Hm Hv env _ Hall).
  rewrite (assoc_has_key _ _ _ Hc), (assoc_has_key _ _ _ Hm). reflexivity.
Qed.

(** ** XML bodies *)

Lemma Element_nested_ind : forall P : Element -> Prop,
  (forall t x cs, Forall P cs -> P (mkElement t x cs)) ->
  forall e, P e.
Proof.
  intros P H. fix IH 1. intros [t x cs]. apply H.
  induction cs as [|c cs IHcs]; constructor; [apply IH | exact IHcs].
Qed.

Lemma iter_self : forall e, In e (iter e).
Proof. intros [t x cs]. simpl. now left. Qed.

Lemma iter_child : forall e child root,
  In child (children root) -> In e (iter child) -> In e (iter root).
Proof.
  intros e child [t x cs] Hc He. simpl in *. right.
  apply in_flat_map. exists child. auto.
Qed.

(** [iter] yields the root and every descendant, and nothing else. *)
Lemma iter_within : forall root e, In e (iter root) <-> within e root.
Proof.
  intros root e. split.
  - revert e. induction root as [t x cs IH] using Element_nested_ind.
    intros e [<- | H]; [apply within_self|].
    apply in_flat_map in H. destruct H as [c [Hc He]].
    apply within_child with c; [exact Hc|].
    rewrite Forall_forall in IH. now apply IH.
  - induction 1 as [|child root Hc _ IH]; [apply iter_self|].
    now apply iter_child with child.
Qed.

Lemma last_cons : forall (A : Type) (x : A) l d, last (x :: l) d = last l x.
Proof.
  intros A x l. revert x. induction l as [|y l IH]; intros x d.
  - reflexivity.
  - change (last (x :: y :: l) d) with (last (y :: l) d).
    rewrite (IH y d), (IH y x). reflexivity.
Qed.

Lemma assoc_dict_set : forall (V : Type) k k' (v : V) d,
  assoc k (dict_set k' v d)
  = if String.eqb k k' then Some v else assoc k d.
Proof.
  intros V k k' v d. induction d as [|[k0 v0] d IH]; simpl.
  - reflexivity.
  - destruct (String.eqb k' k0) eqn:E; simpl.
    + apply String.eqb_eq in E. subst k0.
      destruct (String.eqb k k'); reflexivity.
    + rewrite IH. destruct (String.eqb k k0) eqn:E0; [|reflexivity].
      apply String.eqb_eq in E0. subst k0.
      rewrite String.eqb_sym, E. reflexivity.
Qed.

Lemma find_app : forall (A : Type) (f : A -> bool) l1 l2,
  find f (l1 ++ l2)%list
  = match find f l1 with
    | Some x => Some x
    | None => find f l2
    end.
Proof.
  intros A f l1 l2. induction l1 as [|x l1 IH]; simpl; [reflexivity|].
  destruct (f x); auto.
Qed.

Lemma assoc_fold_dict_set : forall k l d,
  assoc k (fold_left (fun d e => dict_set (tag e) (text e) d) l d)
  = match last_tagged k l with
    | Some e => Some (text e)
    | None => assoc k d
    end.
Proof.
  intros k l. unfold last_tagged. induction l as [|x l IH]; intros d.
  - reflexivity.
  - cbn [fold_left rev]. rewrite IH, find_app. cbn [find].
    destruct (find _ (rev l)); [reflexivity|].
    rewrite assoc_dict_set. destruct (String.eqb k (tag x)); reflexivity.
Qed.

(** The loop over [iter()] never raises; each of the three variables ends
    with what the last element of its role assigned. *)
Lemma for_each_xml : forall l st,
  exists st',
    for_each decode_xml_info l st = Ok st'
    /\ d_error_code st'
       = last (map (fun e => of_text (text e)) (filter is_code l))
           (d_error_code st)
    /\ d_error_message st'
       = last (map (fun e => of_text (text e)) (filter is_message l))
           (d_error_message st)
    /\ d_additional_data st'
       = fold_left (fun d e => dict_set (tag e) (text e) d)
           (filter is_other l) (d_additional_data st).
Proof.
  induction l as [|x l IH]; intros st.
  - exists st. repeat split.
  - cbn [for_each filter]. unfold decode_xml_info, find_ne_minus1.
    unfold is_message, is_other, is_code.
    destruct (str_in "code" (lower (tag x))) eqn:C; cbn [negb andb bind].
    + destruct (IH (mkDecoded (of_text (text x)) (d_error_message st)
                      (d_additional_data st))) as [st' [E [H1 [H2 H3]]]].
      exists st'. split; [exact E|]. cbn [map]. rewrite last_cons.
      auto.
    + destruct (str_in "message" (lower (tag x))) eqn:M; cbn [negb bind].
      * destruct (IH (mkDecoded (d_error_code st) (of_text (text x))
                        (d_additional_data st))) as [st' [E [H1 [H2 H3]]]].
        exists st'. split; [exact E|]. cbn [map]. rewrite last_cons.
        auto.
      * destruct (IH (mkDecoded (d_error_code st) (d_error_message st)
                        (dict_set (tag x) (text x) (d_additional_data st))))
          as [st' [E [H1 [H2 H3]]]].
        exists st'. split; [exact E|]. cbn [fold_left]. auto.
Qed.

(** C6, as amended.  For an XML body whose root has at least one child,
    decoding visits the root element and every descendant, in document
    order, and never raises.  The code is the text of the last visited
    element whose lower-cased tag contains "code" (the header's code when
    there is none); the message is the text of the last visited element
    whose lower-cased tag contains "message" and not "code" (the message
    supplied when there is none); every other visited element, the root
    included, is an extra-data entry under its tag, the last element of a
    tag giving the value.  A root without children is not visited at
    all. *)
Theorem xml_decoding_visits_every_element :
  forall header reason odata root error_message,
    (forall e, In e (iter root) <-> within e root)
    /\ exists st,
        decode_body (mkResponse header reason odata (Ok (Xml root)))
          error_message
        = Ok st
        /\ if element_truthy root then
             d_error_code st
             = last (map (fun e => of_text (text e))
                       (filter is_code (iter root))) (of_text header)
             /\ d_error_message st
                = last (map (fun e => of_text (text e))
                          (filter is_message (iter root))) error_message
             /\ d_additional_data st
                = fold_left (fun d e => dict_set (tag e) (text e) d)
                    (filter is_other (iter root)) []
             /\ forall k,
                 assoc k (d_additional_data st)
                 = option_map text
                     (last_tagged k (filter is_other (iter root)))
           else st = mkDecoded (of_text header) error_message [].
Proof.
  intros header reason odata root msg. split; [apply iter_within|].
  unfold decode_body.
  cbn [deserialize_from_http_generics x_ms_error_code bind].
  destruct (element_truthy root).
  - destruct (for_each_xml (iter root) (mkDecoded (of_text header) msg []))
      as [st [E [H1 [H2 H3]]]].
    exists st. rewrite E. split; [reflexivity|].
    cbn [d_error_code d_error_message d_additional_data] in *.
    repeat split; auto.
    intros k. rewrite H3, assoc_fold_dict_set.
    destruct (last_tagged k (filter is_other (iter root))); reflexivity.
  - eexists. split; reflexivity.
Qed.

(** C6, as stated, fails: on [xml_nested] the decoded code is the text of
    an element two levels below the root, the root itself is an
    extra-data entry, and decoding the direct children only gives another
    result. *)
Lemma xml_decoding_is_not_children_only :
  decode_body (xml_response xml_nested) JNull
  = Ok (mkDecoded (JStr "Inner")
          (JStr "The table specified does not exist.")
          [("error", Some " "); ("innererror", None)])
  /\ decode_children None JNull xml_nested
     = mkDecoded (JStr "TableNotFound")
         (JStr "The table specified does not exist.")
         [("innererror", None)]
  /\ decode_body (xml_response xml_nested) JNull
     <> Ok (decode_children None JNull xml_nested).
Proof.
  split; [reflexivity|]. split; [reflexivity|].
  vm_compute. discriminate.
Qed.

(** ** The index of a transaction error *)

Lemma colon_char : forall c,
  (nat_of_ascii c =? 58)%nat = true <-> c = ":"%char.
Proof.
  intros c. rewrite Nat.eqb_eq. split.
  - intros H. rewrite <- (ascii_nat_embedding c), H. reflexivity.
  - intros ->. reflexivity.
Qed.

Lemma before_colon_idem : forall s,
  before_colon (before_colon s) = before_colon s.
Proof.
  induction s as [|c s IH]; [reflexivity|]. simpl.
  destruct (nat_of_ascii c =? 58)%nat eqn:E; [reflexivity|].
  simpl. now rewrite E, IH.
Qed.

Lemma before_colon_no_colon : forall s,
  str_in ":" s = false -> before_colon s = s.
Proof.
  induction s as [|c s IH]; [reflexivity|].
  intros H. cbn [str_in] in H. apply orb_false_iff in H.
  destruct H as [H1 H2]. cbn [before_colon].
  destruct (nat_of_ascii c =? 58)%nat eqn:E.
  - apply colon_char in E. subst c.
    destruct s; vm_compute in H1; discriminate H1.
  - now rewrite (IH H2).
Qed.

Lemma digit_not_space : forall c, is_digit c = true -> is_space c = false.
Proof.
  intros c. unfold is_digit, is_space, in_range.
  intros H. apply andb_prop in H. destruct H as [H1 H2].
  apply Nat.leb_le in H1, H2.
  repeat rewrite orb_false_iff. repeat split.
  - apply andb_false_iff. right. apply Nat.leb_gt. lia.
  - apply Nat.eqb_neq. lia.
  - apply Nat.eqb_neq. lia.
  - apply Nat.eqb_neq. lia.
Qed.

Lemma digit_not_sign : forall c, is_digit c = true -> is_sign c = false.
Proof.
  intros c. unfold is_digit, is_sign, in_range.
  intros H. apply andb_prop in H. destruct H as [H1 H2].
  apply Nat.leb_le in H1, H2.
  apply orb_false_iff. split; apply Nat.eqb_neq; lia.
Qed.

Lemma digit_value_nonneg : forall c, (0 <= digit_value c)%Z.
Proof. intros c. unfold digit_value. lia. Qed.

Lemma scan_digits_all : forall digits acc count,
  all_chars is_digit digits = true ->
  scan_digits acc count digits
  = Some ((acc * 10 ^ Z.of_nat (String.length digits)
           + decimal_value digits)%Z,
          (count + String.length digits)%nat, "").
Proof.
  induction digits as [|c ds IH]; intros acc count H.
  - simpl. do 3 f_equal; [lia | lia].
  - cbn [all_chars] in H. apply andb_prop in H. destruct H as [Hc Hd].
    cbn [scan_digits]. rewrite Hc, (IH _ _ Hd).
    cbn [String.length decimal_value].
    rewrite Nat2Z.inj_succ, Z.pow_succ_r by lia.
    do 3 f_equal; [ring | lia].
Qed.

Lemma scan_digits_nonneg : forall s acc count n count' rest,
  (0 <= acc)%Z ->
  scan_digits acc count s = Some (n, count', rest) ->
  (0 <= n)%Z.
Proof.
  fix IH 1. intros [|c s] acc count n count' rest Hacc H.
  - simpl in H. injection H as <- _ _. exact Hacc.
  - cbn [scan_digits] in H.
    destruct (is_digit c).
    + eapply (IH s); [|exact H]. pose proof (digit_value_nonneg c). lia.
    + destruct (nat_of_ascii c =? 95)%nat.
      * destruct s as [|d s']; [discriminate|].
        destruct (is_digit d); [|discriminate].
        eapply (IH s'); [|exact H]. pose proof (digit_value_nonneg d). lia.
      * injection H as <- _ _. exact Hacc.
Qed.

Lemma int_digits_nonneg : forall lim s n,
  int_digits lim s = Ok n -> (0 <= n)%Z.
Proof.
  intros lim [|c t] n H; [discriminate H|]. unfold int_digits in H.
  destruct (is_digit c); [|discriminate H].
  destruct (scan_digits 0 0 (String c t)) as [[[n0 count] rest]|] eqn:S;
    [|discriminate H].
  destruct ((640 <? count)%nat && (0 <? lim)%nat && (lim <? count)%nat);
    [discriminate H|].
  destruct (all_space rest); [|discriminate H].
  injection H as ->. apply scan_digits_nonneg in S; lia.
Qed.

Lemma int_digits_no_digit : forall lim s,
  match s with
  | String c _ => is_digit c = false
  | EmptyString => True
  end ->
  int_digits lim s = Raise invalid_literal.
Proof.
  intros lim [|c t] H; [reflexivity|]. unfold int_digits. now rewrite H.
Qed.

(** [int] of a string of digits. *)
Lemma py_int_digits : forall lim digits,
  digits <> "" ->
  all_chars is_digit digits = true ->
  (String.length digits <= 640)%nat ->
  py_int lim digits = Ok (decimal_value digits).
Proof.
  intros lim [|c ds] N H L; [congruence|].
  pose proof H as H'. cbn [all_chars] in H'.
  apply andb_prop in H'. destruct H' as [Hc _].
  pose proof (digit_not_space c Hc) as Hs.
  pose proof (digit_not_sign c Hc) as Hn.
  unfold is_sign in Hn. apply orb_false_iff in Hn. destruct Hn as [Hp Hm].
  unfold py_int. cbn [lstrip]. rewrite Hs, Hp, Hm.
  unfold int_digits. rewrite Hc.
  rewrite (scan_digits_all (String c ds) 0 0 H).
  replace (640 <? 0 + String.length (String c ds))%nat with false
    by (symmetry; apply Nat.ltb_ge; lia).
  cbn [andb all_space]. reflexivity.
Qed.

Lemma space_not_colon : forall c,
  is_space c = true -> (nat_of_ascii c =? 58)%nat = false.
Proof.
  intros c H. destruct (nat_of_ascii c =? 58)%nat eqn:E; [|reflexivity].
  apply colon_char in E. subst c. discriminate H.
Qed.

Lemma lstrip_before_colon : forall s,
  lstrip (before_colon s) = before_colon (lstrip s).
Proof.
  induction s as [|c s IH]; [reflexivity|].
  cbn [lstrip before_colon].
  destruct (is_space c) eqn:S.
  - rewrite (space_not_colon c S). cbn [lstrip]. now rewrite S.
  - cbn [before_colon].
    destruct (nat_of_ascii c =? 58)%nat; [reflexivity|].
    cbn [lstrip]. now rewrite S.
Qed.

(** [int] of a text that does not start with an integer. *)
Lemma py_int_no_leading_integer : forall lim s,
  has_leading_integer s = false ->
  py_int lim (before_colon s) = Raise invalid_literal.
Proof.
  intros lim s H. unfold has_leading_integer in H.
  unfold py_int. rewrite lstrip_before_colon.
  destruct (lstrip s) as [|c rest]; [reflexivity|].
  apply orb_false_iff in H. destruct H as [Hd Hs].
  cbn [before_colon].
  destruct (nat_of_ascii c =? 58)%nat; [reflexivity|].
  assert (R : is_sign c = true ->
              int_digits lim (before_colon rest) = Raise invalid_literal).
  { intros S. rewrite S in Hs. cbn [andb] in Hs.
    apply int_digits_no_digit.
    destruct rest as [|d r]; [exact I|]. cbn [before_colon].
    destruct (nat_of_ascii d =? 58)%nat; [exact I | exact Hs]. }
  unfold is_sign in R.
  destruct (nat_of_ascii c =? 43)%nat; [now apply R|].
  destruct (nat_of_ascii c =? 45)%nat; [now rewrite R|].
  apply int_digits_no_digit. exact Hd.
Qed.

(** [int] gives a negative number only for a text that starts, after
    white space, with a minus sign. *)
Lemma py_int_negative : forall lim s n,
  py_int lim s = Ok n -> (n < 0)%Z -> starts_with_minus s = true.
Proof.
  intros lim s n H Hn. unfold py_int in H. unfold starts_with_minus.
  destruct (lstrip s) as [|c rest]; [discriminate H|].
  destruct (nat_of_ascii c =? 43)%nat eqn:P.
  - apply int_digits_nonneg in H. lia.
  - destruct (nat_of_ascii c =? 45)%nat; [reflexivity|].
    apply int_digits_nonneg in H. lia.
Qed.

Lemma starts_with_minus_before_colon : forall s,
  starts_with_minus (before_colon s) = starts_with_minus s.
Proof.
  intros s. unfold starts_with_minus. rewrite lstrip_before_colon.
  destruct (lstrip s) as [|c rest]; [reflexivity|]. cbn [before_colon].
  destruct (nat_of_ascii c =? 58)%nat eqn:E; [|reflexivity].
  apply colon_char in E. subst c. reflexivity.
Qed.

(** *** [int] against the grammar of the literal *)

Lemma char_code : forall c n,
  (nat_of_ascii c =? n)%nat = true -> c = ascii_of_nat n.
Proof.
  intros c n H. apply Nat.eqb_eq in H.
  now rewrite <- (ascii_nat_embedding c), H.
Qed.

Lemma all_space_all_chars : forall s, all_space s = all_chars is_space s.
Proof.
  induction s as [|c s IH]; [reflexivity|].
  cbn [all_space all_chars]. now rewrite IH.
Qed.

Lemma space_not_digit : forall c, is_space c = true -> is_digit c = false.
Proof.
  intros c H. destruct (is_digit c) eqn:D; [|reflexivity].
  rewrite (digit_not_space c D) in H. discriminate H.
Qed.

Lemma space_not_underscore : forall c,
  is_space c = true -> (nat_of_ascii c =? 95)%nat = false.
Proof.
  intros c H. destruct (nat_of_ascii c =? 95)%nat eqn:E; [|reflexivity].
  apply char_code in E. subst c. discriminate H.
Qed.

Lemma digit_not_underscore : forall c,
  is_digit c = true -> (nat_of_ascii c =? 95)%nat = false.
Proof.
  intros c. unfold is_digit, in_range. intros H.
  apply andb_prop in H. destruct H as [H1 H2].
  apply Nat.leb_le in H1, H2. apply Nat.eqb_neq. lia.
Qed.

Lemma lstrip_app : forall ws r,
  all_chars is_space ws = true -> lstrip (ws ++ r) = lstrip r.
Proof.
  induction ws as [|c ws IH]; intros r H; [reflexivity|].
  cbn [all_chars] in H. apply andb_prop in H. destruct H as [Hc Hw].
  cbn [append lstrip]. rewrite Hc. now apply IH.
Qed.

Lemma lstrip_split : forall s,
  exists ws, s = ws ++ lstrip s /\ all_chars is_space ws = true.
Proof.
  induction s as [|c s [ws [E H]]]; [now exists ""|].
  cbn [lstrip]. destruct (is_space c) eqn:S.
  - exists (String c ws). split.
    + cbn [append]. congruence.
    + cbn [all_chars]. now rewrite S, H.
  - now exists "".
Qed.

Lemma py_int_lstrip : forall lim ws r,
  all_chars is_space ws = true -> py_int lim (ws ++ r) = py_int lim r.
Proof.
  intros lim ws r H. unfold py_int. now rewrite (lstrip_app ws r H).
Qed.

Lemma py_int_plus : forall lim r,
  py_int lim (String "+" r) = int_digits lim r.
Proof. reflexivity. Qed.

Lemma py_int_minus : forall lim r,
  py_int lim (String "-" r)
  = match int_digits lim r with
    | Ok n => Ok (- n)%Z
    | Raise e => Raise e
    end.
Proof. reflexivity. Qed.

Lemma py_int_unsigned : forall lim c r,
  is_digit c = true ->
  py_int lim (String c r) = int_digits lim (String c r).
Proof.
  intros lim c r D. pose proof (digit_not_sign c D) as Hn.
  unfold is_sign in Hn. apply orb_false_iff in Hn. destruct Hn as [Hp Hm].
  unfold py_int. cbn [lstrip]. now rewrite (digit_not_space c D), Hp, Hm.
Qed.

(** White space ends the digits. *)
Lemma scan_digits_space : forall ws acc count,
  all_chars is_space ws = true ->
  scan_digits acc count ws = Some (acc, count, ws).
Proof.
  intros [|c ws] acc count H; [reflexivity|].
  cbn [all_chars] in H. apply andb_prop in H. destruct H as [Hc _].
  cbn [scan_digits].
  now rewrite (space_not_digit c Hc), (space_not_underscore c Hc).
Qed.

(** The scanner reads digit groups to their end and gives the value and
    the number of their digits. *)
Lemma scan_digits_groups : forall body after ws acc count,
  digit_groups_from after body = true ->
  all_chars is_space ws = true ->
  scan_digits acc count (body ++ ws)
  = Some ((acc * 10 ^ Z.of_nat (String.length (strip_underscores body))
           + decimal_value (strip_underscores body))%Z,
          (count + String.length (strip_underscores body))%nat, ws).
Proof.
  fix IH 1. intros [|c body] after ws acc count H W.
  - cbn [append strip_underscores String.length decimal_value].
    rewrite (scan_digits_space ws acc count W).
    do 3 f_equal; [cbn; lia | lia].
  - cbn [digit_groups_from] in H. cbn [strip_underscores].
    destruct (is_digit c) eqn:D.
    + cbn [append scan_digits]. rewrite D, (digit_not_underscore c D).
      rewrite (IH body true ws _ _ H W).
      cbn [String.length decimal_value].
      rewrite Nat2Z.inj_succ, Z.pow_succ_r by lia.
      do 3 f_equal; [ring | lia].
    + apply andb_prop in H. destruct H as [H1 H2].
      apply andb_prop in H1. destruct H1 as [U _]. rewrite U.
      destruct body as [|d body]; [discriminate H2|].
      cbn [digit_groups_from] in H2.
      destruct (is_digit d) eqn:D';
        [|rewrite andb_false_r in H2; discriminate H2].
      cbn [append scan_digits]. rewrite D, U, D'.
      cbn [strip_underscores]. rewrite (digit_not_underscore d D').
      rewrite (IH body true ws _ _ H2 W).
      cbn [String.length decimal_value].
      rewrite Nat2Z.inj_succ, Z.pow_succ_r by lia.
      do 3 f_equal; [ring | lia].
Qed.

(** What the scanner has read is a run of digit groups. *)
Lemma scan_digits_sound : forall s acc count n count' rest,
  scan_digits acc count s = Some (n, count', rest) ->
  exists body, s = body ++ rest /\ digit_groups_from true body = true.
Proof.
  fix IH 1. intros [|c s] acc count n count' rest H.
  - cbn [scan_digits] in H. injection H as _ _ <-. now exists "".
  - cbn [scan_digits] in H. destruct (is_digit c) eqn:D.
    + destruct (IH s _ _ _ _ _ H) as [body [E G]].
      exists (String c body). split.
      * cbn [append]. congruence.
      * cbn [digit_groups_from]. now rewrite D.
    + destruct (nat_of_ascii c =? 95)%nat eqn:U.
      * destruct s as [|d s']; [discriminate H|].
        destruct (is_digit d) eqn:D'; [|discriminate H].
        destruct (IH s' _ _ _ _ _ H) as [body [E G]].
        exists (String c (String d body)). split.
        -- cbn [append]. congruence.
        -- cbn [digit_groups_from]. now rewrite D, U, D'.
      * injection H as _ _ <-. now exists "".
Qed.

Lemma int_digits_groups : forall lim body ws,
  digit_groups body = true ->
  all_chars is_space ws = true ->
  int_digits lim (body ++ ws)
  = if digits_refused lim body then Raise digit_limit_error
    else Ok (decimal_value (strip_underscores body)).
Proof.
  intros lim body ws H W.
  pose proof (scan_digits_groups body false ws 0 0 H W) as S.
  destruct body as [|c body]; [discriminate H|].
  unfold digit_groups in H. cbn [digit_groups_from] in H.
  destruct (is_digit c) eqn:D;
    [|rewrite andb_false_r in H; discriminate H].
  cbn [append] in *. unfold int_digits. rewrite D, S.
  cbn [Nat.add]. unfold digits_refused.
  destruct ((640 <? String.length (strip_underscores (String c body)))%nat
            && (0 <? lim)%nat
            && (lim <? String.length (strip_underscores (String c body)))%nat);
    [reflexivity|].
  rewrite all_space_all_chars, W. reflexivity.
Qed.

Lemma int_digits_sound : forall lim s n,
  int_digits lim s = Ok n ->
  exists body ws,
    s = body ++ ws /\ digit_groups body = true
    /\ all_chars is_space ws = true.
Proof.
  intros lim [|c t] n H; [discriminate H|]. unfold int_digits in H.
  destruct (is_digit c) eqn:D; [|discriminate H].
  destruct (scan_digits 0 0 (String c t)) as [[[n0 count] rest]|] eqn:S;
    [|discriminate H].
  destruct ((640 <? count)%nat && (0 <? lim)%nat && (lim <? count)%nat);
    [discriminate H|].
  destruct (all_space rest) eqn:W; [|discriminate H].
  destruct (scan_digits_sound _ _ _ _ _ _ S) as [body [E G]].
  exists body, rest. split; [exact E|].
  split; [|now rewrite <- all_space_all_chars].
  destruct body as [|c' b].
  - cbn [append] in E. subst rest. cbn [all_space] in W.
    rewrite (digit_not_space c D) in W. discriminate W.
  - cbn [append] in E. injection E as <- _.
    unfold digit_groups. cbn [digit_groups_from] in *. now rewrite D in *.
Qed.

(** [int] of a literal: its value, unless it has too many digits. *)
Lemma py_int_literal : forall lim text sgn body,
  int_literal text sgn body ->
  py_int lim text
  = if digits_refused lim body then Raise digit_limit_error
    else Ok (literal_value sgn body).
Proof.
  intros lim text sgn body [ws1 [ws2 [-> [W1 [W2 [S B]]]]]].
  rewrite (py_int_lstrip lim ws1 _ W1).
  pose proof (int_digits_groups lim body ws2 B W2) as I.
  unfold literal_value.
  destruct S as [-> | [-> | ->]]; cbn [append String.eqb Ascii.eqb Bool.eqb].
  - destruct body as [|c b]; [discriminate B|].
    unfold digit_groups in B. cbn [digit_groups_from] in B.
    destruct (is_digit c) eqn:D;
      [|rewrite andb_false_r in B; discriminate B].
    cbn [append] in *. now rewrite (py_int_unsigned lim c _ D).
  - now rewrite py_int_plus.
  - rewrite py_int_minus, I.
    now destruct (digits_refused lim body).
Qed.

(** [int] returns on literals only. *)
Lemma py_int_sound : forall lim text n,
  py_int lim text = Ok n -> exists sgn body, int_literal text sgn body.
Proof.
  intros lim text n H. destruct (lstrip_split text) as [ws1 [E W1]].
  unfold py_int in H. destruct (lstrip text) as [|c rest]; [discriminate H|].
  destruct (nat_of_ascii c =? 43)%nat eqn:P.
  - apply char_code in P.
    destruct (int_digits_sound lim rest n H) as [body [ws2 [E2 [G W2]]]].
    exists "+", body, ws1, ws2. subst c rest.
    repeat split; auto.
  - destruct (nat_of_ascii c =? 45)%nat eqn:M.
    + apply char_code in M.
      destruct (int_digits lim rest) as [n'|e] eqn:I; [|discriminate H].
      destruct (int_digits_sound lim rest n' I) as [body [ws2 [E2 [G W2]]]].
      exists "-", body, ws1, ws2. subst c rest.
      repeat split; auto.
    + destruct (int_digits_sound lim _ n H) as [body [ws2 [E2 [G W2]]]].
      exists "", body, ws1, ws2. rewrite <- E2.
      repeat split; auto.
Qed.

(** C8, as amended.  The index depends only on the text before the first
    colon, which is the whole message when the message has no colon.  The
    function is total: it never raises.  When that text is an integer
    literal (white space, an optional sign, decimal digits in groups that
    single underscores separate, white space) the index is the value of
    the literal, or 0 when [int] refuses the literal for its number of
    digits; when that text is no integer literal the index is 0.  So a
    string of at most 640 decimal digits gives its value, and a message
    that does not start, after white space, with a digit or a signed digit
    gives 0.  "3:Entity already exists." gives 3. *)
Theorem extract_index_by_left_segment :
  forall lim self_message,
    _extract_index lim self_message
    = _extract_index lim (before_colon self_message)
    /\ (str_in ":" self_message = false ->
        before_colon self_message = self_message)
    /\ (before_colon self_message <> "" ->
        all_chars is_digit (before_colon self_message) = true ->
        (String.length (before_colon self_message) <= 640)%nat ->
        _extract_index lim self_message
        = decimal_value (before_colon self_message))
    /\ (has_leading_integer self_message = false ->
        _extract_index lim self_message = 0%Z)
    /\ _extract_index lim "3:Entity already exists." = 3%Z
    /\ (forall sgn body,
           int_literal (before_colon self_message) sgn body ->
           _extract_index lim self_message
           = if digits_refused lim body then 0%Z
             else literal_value sgn body)
    /\ ((forall sgn body,
            ~ int_literal (before_colon self_message) sgn body) ->
        _extract_index lim self_message = 0%Z).
Proof.
  intros lim msg. unfold _extract_index. repeat split.
  - now rewrite before_colon_idem.
  - apply before_colon_no_colon.
  - intros N H L. now rewrite (py_int_digits lim _ N H L).
  - intros H. now rewrite (py_int_no_leading_integer lim msg H).
  - intros sgn body H. rewrite (py_int_literal lim _ sgn body H).
    now destruct (digits_refused lim body).
  - intros H. destruct (py_int lim (before_colon msg)) as [n|e] eqn:E;
      [|reflexivity].
    destruct (py_int_sound lim _ n E) as [sgn [body L]].
    now destruct (H sgn body).
Qed.

Lemma extract_index_witness :
  _extract_index 4300 "12:Entity already exists." = 12%Z
  /\ _extract_index 4300 "007" = 7%Z
  /\ _extract_index 4300 "Entity already exists: 3" = 0%Z
  /\ _extract_index 4300 " -1_000 :rolled back" = (-1000)%Z
  /\ _extract_index 4300 "3abc:x" = 0%Z.
Proof.
  split; [|split; [|split; [|split]]].
  - destruct (extract_index_by_left_segment 4300 "12:Entity already exists.")
      as [_ [_ [H _]]].
    apply H; [discriminate | reflexivity | simpl; lia].
  - destruct (extract_index_by_left_segment 4300 "007") as [_ [H1 [H2 _]]].
    rewrite H2; [reflexivity | discriminate | reflexivity|].
    rewrite (H1 eq_refl). simpl. lia.
  - destruct (extract_index_by_left_segment 4300 "Entity already exists: 3")
      as [_ [_ [_ [H _]]]].
    apply H. reflexivity.
  - destruct (extract_index_by_left_segment 4300 " -1_000 :rolled back")
      as [_ [_ [_ [_ [_ [H _]]]]]].
    apply (H "-" "1_000"). exists " ", " ".
    repeat split; auto.
  - destruct (extract_index_by_left_segment 4300 "3abc:x")
      as [_ [_ [_ [_ [_ [_ H]]]]]].
    apply H. intros sgn body [ws1 [ws2 [E [W1 [W2 [S B]]]]]].
    change (before_colon "3abc:x") with "3abc" in E.
    destruct ws1 as [|w ws1];
      [|cbn [append] in E; injection E as <- _; cbn in W1;
        discriminate W1].
    destruct S as [-> | [-> | ->]]; cbn [append] in E;
      [|discriminate E|discriminate E].
    destruct body as [|c b]; [discriminate B|].
    cbn [append] in E. injection E as <- E.
    destruct b as [|c b];
      [cbn [append] in E; subst ws2; discriminate W2|].
    cbn [append] in E. injection E as <- _. discriminate B.
Defined.

(** C8, as stated, fails: a message without a colon is not a parse
    failure.  "42" has no colon and its index is 42, not 0. *)
Lemma index_of_message_without_colon :
  str_in ":" "42" = false
  /\ _extract_index 4300 "42" = 42%Z
  /\ _extract_index 4300 "42" <> 0%Z.
Proof. repeat split. discriminate. Qed.

(** C9, as amended.  A transaction error built without an explicit index
    has an index: the one extracted from its message.  The index is
    non-negative unless the message starts, after white space, with a
    minus sign. *)
Theorem transaction_index_sign :
  forall py_repr lim error_type msg response,
    error_type = TableTransactionError \/ error_type = RequestTooLargeError ->
    exists i,
      index (new_error py_repr lim error_type msg response (mkKwargs None))
      = Some i
      /\ i = _extract_index lim
               (message (new_error py_repr lim error_type msg response
                           (mkKwargs None)))
      /\ (starts_with_minus
            (message (new_error py_repr lim error_type msg response
                        (mkKwargs None))) = false ->
          (0 <= i)%Z).
Proof.
  intros py_repr lim ty msg response Hty.
  eexists. split; [destruct Hty as [-> | ->]; reflexivity|].
  split; [destruct Hty as [-> | ->]; reflexivity|].
  assert (G : forall s, starts_with_minus s = false ->
                        (0 <= _extract_index lim s)%Z).
  { intros s Hs. unfold _extract_index.
    destruct (py_int lim (before_colon s)) as [n|e] eqn:E; [|lia].
    destruct (Z.lt_ge_cases n 0) as [Neg|]; [exfalso|assumption].
    pose proof (py_int_negative lim _ n E Neg) as M.
    rewrite starts_with_minus_before_colon in M. congruence. }
  destruct Hty as [-> | ->]; apply G.
Qed.

Lemma transaction_index_witness :
  exists i,
    index (new_error repr0 4300 TableTransactionError
             (JStr "3:The specified entity already exists.")
             unparsable_response (mkKwargs None)) = Some i
    /\ (0 <= i)%Z.
Proof.
  destruct (transaction_index_sign repr0 4300 TableTransactionError
              (JStr "3:The specified entity already exists.")
              unparsable_response (or_introl eq_refl)) as [i [H1 [_ H2]]].
  exists i. split; [exact H1|]. apply H2. reflexivity.
Defined.

(** C9, as stated, fails: the index of a transaction error whose message
    starts with "-3:" is -3, both for an error built directly and for one
    decoded from a response. *)
Lemma negative_transaction_index :
  index (new_error repr0 4300 TableTransactionError
           (JStr "-3:The specified entity already exists.")
           unparsable_response no_kwargs) = Some (-3)%Z
  /\ exists err,
      _decode_error repr0 4300 (Some negative_index_response) JNull
        (Some TableTransactionError) no_kwargs = Ok err
      /\ index err = Some (-3)%Z
      /\ ~ (0 <= -3)%Z.
Proof.
  split; [reflexivity|].
  eexists. split; [vm_compute; reflexivity|].
  split; [reflexivity | lia].
Qed.

(** * Further properties of the module *)

(** ** The enumeration *)

(** X1.  [TableErrorCode(c.value)] is [c] for every member, a lookup that
    succeeds was given the member's value as a string, and two members
    with the same value are the same member. *)
Theorem TableErrorCode_round_trip :
  (forall c, TableErrorCode_call (JStr (value c)) = Ok c)
  /\ (forall v c, TableErrorCode_call v = Ok c -> v = JStr (value c))
  /\ (forall a b, value a = value b -> a = b).
Proof.
  split; [exact call_value|]. split.
  - intros v c H. unfold TableErrorCode_call in H.
    destruct (find _ members) as [d|] eqn:F; [|discriminate H].
    injection H as ->. apply find_some in F. destruct F as [_ F].
    destruct v; try discriminate F. simpl in F.
    apply String.eqb_eq in F. now subst.
  - intros a b H. pose proof (call_value a) as A.
    rewrite H, call_value in A. now injection A.
Qed.

(** ** [_decode_error] with an error type chosen by the caller *)

(** X2.  When the caller passes [error_type], the error returned has
    that class and its code is the decoded value as it is, never a member
    of the enumeration; with a string for decoded message the call
    returns. *)
Theorem explicit_error_type_is_kept :
  forall py_repr lim response error_message t kw st,
    decode_body response error_message = Ok st ->
    (forall err,
        _decode_error py_repr lim (Some response) error_message (Some t) kw
        = Ok err ->
        exc_type err = t /\ error_code err = Raw (d_error_code st))
    /\ (forall m,
           d_error_message st = JStr m ->
           exists err,
             _decode_error py_repr lim (Some response) error_message
               (Some t) kw = Ok err).
Proof.
  intros py_repr lim response msg t kw st Hst. split.
  - intros err H. apply decode_error_inv in H.
    destruct H as [st' [code [t' [m [Hst' [Hct [_ ->]]]]]]].
    rewrite Hst in Hst'. injection Hst' as <-.
    simpl in Hct. injection Hct as <- <-. split; reflexivity.
  - intros m Hm.
    destruct (decode_error_str py_repr lim response msg (Some t) kw st m
                (Raw (d_error_code st)) t Hst Hm eq_refl) as [err [E _]].
    eauto.
Qed.

Lemma explicit_error_type_witness :
  exists err,
    _decode_error repr0 4300 (Some unparsable_response) (JStr "Not Found")
      (Some TableTransactionError) no_kwargs = Ok err
    /\ exc_type err = TableTransactionError
    /\ error_code err = Raw (JStr "TableNotFound").
Proof.
  destruct (explicit_error_type_is_kept repr0 4300 unparsable_response
              (JStr "Not Found") TableTransactionError no_kwargs
              (mkDecoded (JStr "TableNotFound") (JStr "Not Found") [])
              eq_refl) as [H1 H2].
  destruct (H2 "Not Found" eq_refl) as [err E].
  exists err. split; [exact E|]. exact (H1 err E).
Defined.

(** ** Bodies that carry nothing *)

Lemma no_content_decode_body : forall response error_message,
  no_content (deserialize_from_http_generics response) = true ->
  decode_body response error_message
  = Ok (mkDecoded (of_text (x_ms_error_code response)) error_message []).
Proof.
  intros [header reason odata b] msg H. unfold decode_body.
  cbn [deserialize_from_http_generics x_ms_error_code] in *.
  destruct b as [[v|root]|e]; cbn [no_content] in H; cbn [bind].
  - destruct v; cbn [negb truthy] in H; try (rewrite negb_true_iff in H);
      try (cbn [truthy]; rewrite H; reflexivity); try reflexivity.
    destruct (assoc "odata.error" fields) as [envelope|]; [|reflexivity].
    destruct (py_iter envelope) as [[|x l]|]; try discriminate H.
    reflexivity.
  - apply negb_true_iff in H. rewrite H. reflexivity.
  - unfold try_except. rewrite H. reflexivity.
Qed.

(** X3.  A response whose body cannot be parsed, is absent or empty, is
    a JSON object without a filled [odata.error] envelope, or is an XML
    root without children, is decoded from its header alone: with a string
    message [m], [_decode_error] returns an error that is classified by
    the header's code and has no extra data.  Its message is the text of
    the OData v4 error when the exception constructor finds one in the
    body (a JSON object with a top-level [error], say), and otherwise [m]
    followed by the code line. *)
Theorem body_without_content_decodes_from_header :
  forall py_repr lim response m error_type kw,
    no_content (deserialize_from_http_generics response) = true ->
    exists err,
      _decode_error py_repr lim (Some response) (JStr m) error_type kw
      = Ok err
      /\ classify (of_text (x_ms_error_code response)) error_type
         = Ok (error_code err, exc_type err)
      /\ additional_info err = []
      /\ message err
         = match odata_v4_error response with
           | Some text => text
           | None =>
               m ++ nl ++ "ErrorCode:"
                 ++ format_code py_repr (error_code err)
           end.
Proof.
  intros py_repr lim response m ty kw H.
  pose proof (no_content_decode_body response (JStr m) H) as D.
  destruct (classify_total (of_text (x_ms_error_code response)) ty)
    as [code [t Hct]].
  destruct (decode_error_str py_repr lim response (JStr m) ty kw _ m code t
              D eq_refl Hct) as [err [E [Ht [Hc [Hi Hm]]]]].
  exists err. rewrite Hc, Ht. split; [exact E|]. split; [exact Hct|].
  split; [exact Hi|].
  rewrite Hm. destruct (odata_v4_error response); [reflexivity|].
  cbn [d_additional_data lines fold_right].
  rewrite append_assoc. f_equal. f_equal. apply append_empty_r.
Qed.

Lemma body_without_content_witness :
  exists err,
    _decode_error repr0 4300 (Some empty_body_response) (JStr "Not Found")
      None no_kwargs = Ok err
    /\ error_code err = Member table_not_found
    /\ exc_type err = ResourceNotFoundError
    /\ message err = "Not Found" ++ nl ++ "ErrorCode:TableNotFound".
Proof.
  destruct (body_without_content_decodes_from_header repr0 4300
              empty_body_response "Not Found" None no_kwargs eq_refl)
    as [err [E [C [_ M]]]].
  exists err. split; [exact E|].
  change (classify (of_text (x_ms_error_code empty_body_response)) None)
    with (Ok (Member table_not_found, ResourceNotFoundError)) in C.
  injection C as A B. rewrite <- A in M.
  split; [now symmetry|]. split; [now symmetry | exact M].
Defined.

(** X4.  A body that is a JSON value other than an object and is not
    false (a text body, a non-empty array, a number) makes decoding raise
    [AttributeError], which [_process_table_error] answers by raising the
    error it was given: the response is not decoded and the table name is
    not validated. *)
Theorem non_object_body_reraises_original :
  forall py_repr lim storage_error response v table_name,
    se_response storage_error = Some (Some response) ->
    deserialize_from_http_generics response = Ok (Json v) ->
    is_object v = false ->
    truthy v = true ->
    (forall error_message error_type kw,
        _decode_error py_repr lim (Some response) error_message error_type kw
        = Raise AttributeError)
    /\ _process_table_error py_repr lim storage_error table_name
       = raise_storage_error storage_error.
Proof.
  intros py_repr lim se response v name Hr Hb Ho Ht.
  assert (D : forall msg, decode_body response msg = Raise AttributeError).
  { intros msg. unfold decode_body. rewrite Hb. cbn [bind].
    destruct v; try discriminate Ho; rewrite Ht; reflexivity. }
  assert (E : forall msg ty kw,
             _decode_error py_repr lim (Some response) msg ty kw
             = Raise AttributeError).
  { intros. unfold _decode_error. rewrite D. reflexivity. }
  split; [exact E|].
  unfold _process_table_error. rewrite Hr. cbn [getattr bind].
  destruct (se_message se) as [msg|]; cbn [getattr bind];
    [rewrite E|]; reflexivity.
Qed.

Lemma non_object_body_witness :
  _process_table_error repr0 4300 (storage_error_of text_body_response)
    (Some "a/b")
  = raise_storage_error (storage_error_of text_body_response).
Proof.
  apply (non_object_body_reraises_original repr0 4300
           (storage_error_of text_body_response) text_body_response
           (JStr "The server is busy.") (Some "a/b"));
    reflexivity.
Defined.

(** ** The extra data as a mapping *)

Lemma dict_set_keys_in : forall (V : Type) k (v : V) d k',
  In k' (map fst (dict_set k v d)) -> k' = k \/ In k' (map fst d).
Proof.
  intros V k v d k'. induction d as [|[k0 v0] d IH]; simpl.
  - intros [H|[]]; auto.
  - destruct (String.eqb k k0); simpl; intros [H|H]; auto.
    destruct (IH H); auto.
Qed.

Lemma dict_set_NoDup : forall (V : Type) k (v : V) d,
  NoDup (map fst d) -> NoDup (map fst (dict_set k v d)).
Proof.
  intros V k v d. induction d as [|[k0 v0] d IH]; simpl; intros H.
  - constructor; [intros [] | constructor].
  - destruct (String.eqb k k0) eqn:E; simpl; [exact H|].
    inversion H as [|? ? Hn Hd]; subst. constructor; [|now apply IH].
    intros HIn. apply dict_set_keys_in in HIn. destruct HIn as [->|HIn].
    + rewrite String.eqb_refl in E. discriminate E.
    + contradiction.
Qed.

Lemma fold_dict_set_keys : forall (P : string -> Prop) l d,
  NoDup (map fst d) ->
  (forall k, In k (map fst d) -> P k) ->
  (forall e, In e l -> P (tag e)) ->
  NoDup (map fst (fold_left (fun d e => dict_set (tag e) (text e) d) l d))
  /\ forall k,
      In k (map fst (fold_left (fun d e => dict_set (tag e) (text e) d) l d))
      -> P k.
Proof.
  intros P l. induction l as [|x l IH]; intros d Hn Hd Hl; [auto|].
  cbn [fold_left]. apply IH.
  - now apply dict_set_NoDup.
  - intros k HIn. apply dict_set_keys_in in HIn.
    destruct HIn as [->|HIn]; [apply Hl; now left | now apply Hd].
  - intros e He. apply Hl. now right.
Qed.

Lemma for_each_json_extras : forall error_body infos st st',
  for_each (decode_json_info error_body) infos st = Ok st' ->
  d_additional_data st' = d_additional_data st.
Proof.
  intros b infos. induction infos as [|x infos IH]; intros st st' H.
  - simpl in H. now injection H as <-.
  - cbn [for_each] in H. apply bind_Ok in H. destruct H as [st1 [H1 H]].
    rewrite (IH _ _ H). unfold decode_json_info in H1.
    destruct (eq_str x "code").
    + apply bind_Ok in H1. destruct H1 as [e [_ H1]].
      apply bind_Ok in H1. destruct H1 as [v [_ H1]].
      now injection H1 as <-.
    + destruct (eq_str x "message"); [|discriminate H1].
      apply bind_Ok in H1. destruct H1 as [e [_ H1]].
      apply bind_Ok in H1. destruct H1 as [m [_ H1]].
      apply bind_Ok in H1. destruct H1 as [v [_ H1]].
      now injection H1 as <-.
Qed.

Lemma decode_body_extras : forall response error_message st,
  decode_body response error_message = Ok st ->
  NoDup (map fst (d_additional_data st))
  /\ (forall k, In k (map fst (d_additional_data st)) -> plain_key k)
  /\ (forall v, deserialize_from_http_generics response = Ok (Json v) ->
      d_additional_data st = []).
Proof.
  intros [header reason odata b] msg st H. unfold decode_body in H.
  cbn [deserialize_from_http_generics x_ms_error_code] in *.
  assert (Z : forall st0 : decoded,
             d_additional_data st0 = [] ->
             NoDup (map fst (d_additional_data st0))
             /\ (forall k, In k (map fst (d_additional_data st0))
                           -> plain_key k)).
  { intros st0 ->. split; [constructor | intros k []]. }
  destruct b as [[v|root]|e]; cbn [bind] in H.
  - assert (E : d_additional_data st = []).
    { destruct v;
        try (destruct (truthy _); [discriminate H | now injection H as <-]).
      destruct (py_iter _) as [infos|e] eqn:I; cbn [bind] in H.
      - destruct (for_each _ infos _) as [st1|e] eqn:F; cbn [try_except] in H.
        + injection H as <-. now rewrite (for_each_json_extras _ _ _ _ F).
        + destruct (exn_eqb e DecodeError); [now injection H as <- | discriminate H].
      - cbn [try_except] in H.
        destruct (exn_eqb e DecodeError); [now injection H as <- | discriminate H]. }
    destruct (Z st E) as [A B]. auto.
  - split; [|split; [|intros v Hv; discriminate Hv]].
    + destruct (element_truthy root).
      * destruct (for_each_xml (iter root)
                    (mkDecoded (of_text header) msg []))
          as [st1 [F [_ [_ X]]]].
        rewrite F in H. injection H as <-. rewrite X.
        apply (fold_dict_set_keys (fun _ => True)); auto.
        constructor.
      * injection H as <-. constructor.
    + destruct (element_truthy root).
      * destruct (for_each_xml (iter root)
                    (mkDecoded (of_text header) msg []))
          as [st1 [F [_ [_ X]]]].
        rewrite F in H. injection H as <-. rewrite X.
        apply (fold_dict_set_keys plain_key).
        -- constructor.
        -- intros k [].
        -- intros e He. apply filter_In in He. destruct He as [_ He].
           unfold is_other, is_code in He. apply andb_prop in He.
           destruct He as [A B]. apply negb_true_iff in A, B.
           split; assumption.
      * injection H as <-. intros k [].
  - cbn [try_except] in H.
    destruct (exn_eqb e DecodeError); [|discriminate H].
    injection H as <-.
    split; [constructor|]. split; [intros k [] | intros v Hv; discriminate Hv].
Qed.

(** X5.  The extra data of a decoded error is a mapping: no key occurs
    twice.  No key contains "code" or "message" in any letter case, and
    a JSON body never contributes an entry. *)
Theorem additional_info_keys :
  forall py_repr lim response error_message error_type kw err,
    _decode_error py_repr lim (Some response) error_message error_type kw
    = Ok err ->
    NoDup (map fst (additional_info err))
    /\ (forall k,
           In k (map fst (additional_info err)) ->
           str_in "code" (lower k) = false
           /\ str_in "message" (lower k) = false)
    /\ (forall v,
           deserialize_from_http_generics response = Ok (Json v) ->
           additional_info err = []).
Proof.
  intros py_repr lim response msg ty kw err H.
  apply decode_error_inv in H.
  destruct H as [st [code [t [m [Hst [_ [_ ->]]]]]]].
  cbn [set_code_info additional_info].
  exact (decode_body_extras response msg st Hst).
Qed.

Lemma additional_info_keys_witness :
  exists err,
    _decode_error repr0 4300 (Some (xml_response xml_nested)) JNull None
      no_kwargs = Ok err
    /\ NoDup (map fst (additional_info err))
    /\ map fst (additional_info err) = ["error"; "innererror"].
Proof.
  eexists. split; [vm_compute; reflexivity|]. split; [|reflexivity].
  match goal with
  | |- NoDup (map fst (additional_info ?e)) =>
      exact (proj1 (additional_info_keys repr0 4300
                      (xml_response xml_nested) JNull None no_kwargs e
                      eq_refl))
  end.
Defined.

(** ** What [_decode_error] can raise *)

Lemma decode_json_info_raises : forall error_body st info e,
  decode_json_info error_body st info = Raise e -> decoding_exn e = true.
Proof.
  intros b st info e. unfold decode_json_info, getitem.
  repeat match goal with
         | |- context [if ?c then _ else _] => destruct c
         | |- context [match ?x with _ => _ end] => destruct x; simpl
         end;
    intros H; try discriminate H; injection H as <-; reflexivity.
Qed.

Lemma for_each_json_raises_kind : forall error_body infos st e,
  for_each (decode_json_info error_body) infos st = Raise e ->
  decoding_exn e = true.
Proof.
  intros b infos. induction infos as [|x infos IH]; intros st e H.
  - discriminate H.
  - cbn [for_each] in H.
    destruct (decode_json_info b st x) as [st1|e1] eqn:E; cbn [bind] in H.
    + now apply IH with st1.
    + injection H as <-. now apply decode_json_info_raises in E.
Qed.

Lemma for_each_iadd_raises : forall (f : string * option string -> string)
    extra m e,
  for_each (fun m kv => iadd m (f kv)) extra m = Raise e -> e = TypeError.
Proof.
  intros f extra. induction extra as [|kv extra IH]; intros m e H.
  - discriminate H.
  - cbn [for_each] in H.
    destruct (iadd m (f kv)) as [m1|e1] eqn:E; cbn [bind] in H.
    + now apply IH with m1.
    + injection H as <-. destruct m; simpl in E; congruence.
Qed.

Lemma decorate_raises : forall py_repr m code extra e,
  decorate py_repr m code extra = Raise e -> e = TypeError.
Proof.
  intros py_repr m code extra e H. unfold decorate in H.
  match type of H with
  | bind ?c _ = _ => destruct c as [m1|e1] eqn:E; cbn [bind] in H
  end.
  - eapply for_each_iadd_raises with
      (f := fun kv => nl ++ fst kv ++ ":" ++ format_text py_repr (snd kv)).
    exact H.
  - injection H as <-.
    destruct code as [c|v]; destruct m; simpl in E; congruence.
Qed.

(** X6.  What [_decode_error] raises is an [AttributeError], a
    [TypeError] or a [KeyError], or else the exception with which the
    deserialization of the body failed, which then is not a
    [DecodeError]: the [ValueError] of the enumeration lookup never
    escapes, and a [DecodeError] is always absorbed. *)
Theorem decode_error_exceptions :
  forall py_repr lim response error_message error_type kw e,
    _decode_error py_repr lim response error_message error_type kw = Raise e ->
    decoding_exn e = true
    \/ exists r,
        response = Some r
        /\ deserialize_from_http_generics r = Raise e
        /\ exn_eqb e DecodeError = false.
Proof.
  intros py_repr lim [r|] msg ty kw e H; simpl in H;
    [|injection H as <-; now left].
  destruct (decode_body r msg) as [st|e1] eqn:D; cbn [bind] in H.
  - left.
    destruct (classify_total (d_error_code st) ty) as [code [t Hct]].
    rewrite Hct in H. cbn [bind fst snd] in H.
    destruct (decorate py_repr (d_error_message st) code
                (d_additional_data st)) as [m|e2] eqn:M; cbn [bind] in H;
      [discriminate H|].
    injection H as <-. now rewrite (decorate_raises _ _ _ _ _ M).
  - injection H as <-. unfold decode_body in D.
    destruct (deserialize_from_http_generics r) as [[v|root]|e0] eqn:B;
      cbn [bind] in D.
    + left.
      assert (K : forall c : result decoded,
                 (forall x, c = Raise x -> decoding_exn x = true) ->
                 try_except c DecodeError
                   (Ok (mkDecoded (of_text (x_ms_error_code r)) msg []))
                 = Raise e1 -> decoding_exn e1 = true).
      { intros [a|x] Hc Ht; cbn [try_except] in Ht; [discriminate Ht|].
        destruct (exn_eqb x DecodeError); [discriminate Ht|].
        injection Ht as <-. now apply Hc. }
      eapply K; [|exact D]. intros x Hx.
      destruct v;
        try (destruct (truthy _); [now injection Hx as <- | discriminate Hx]).
      destruct (py_iter _) as [infos|e3] eqn:I; cbn [bind] in Hx.
      * now apply for_each_json_raises_kind in Hx.
      * injection Hx as <-.
        destruct (assoc "odata.error" fields) as [[]|]; simpl in I;
          try discriminate I; injection I as <-; reflexivity.
    + exfalso. destruct (element_truthy root); [|discriminate D].
      destruct (for_each_xml (iter root)
                  (mkDecoded (of_text (x_ms_error_code r)) msg []))
        as [st1 [F _]].
      rewrite F in D. discriminate D.
    + right. exists r. cbn [try_except] in D.
      destruct (exn_eqb e0 DecodeError) eqn:X; [discriminate D|].
      injection D as <-. auto.
Qed.

Lemma decode_error_exceptions_witness :
  decoding_exn TypeError = true
  \/ exists r,
      Some unparsable_response = Some r
      /\ deserialize_from_http_generics r = Raise TypeError
      /\ exn_eqb TypeError DecodeError = false.
Proof.
  apply (decode_error_exceptions repr0 4300 (Some unparsable_response)
           JNull None no_kwargs TypeError).
  reflexivity.
Defined.

(** ** The branches of the name validator *)

Lemma code_is_other : forall c a b,
  code_is c a = true -> String.eqb a b = false -> code_is c b = false.
Proof.
  intros [m|v] a b H N; simpl in *.
  - apply String.eqb_eq in H. now rewrite H.
  - destruct v; try reflexivity. simpl in *.
    apply String.eqb_eq in H. now rewrite H.
Qed.

Ltac other_code H s :=
  rewrite (code_is_other _ _ s H eq_refl).

Lemma storage_signature_branch : forall decoded_error table_name,
  storage_signature (error_code decoded_error) (message decoded_error) = true ->
  _validate_tablename_error decoded_error table_name
  = _validate_storage_tablename table_name.
Proof.
  intros e name H. unfold storage_signature in H.
  unfold _validate_tablename_error. cbv zeta.
  apply orb_prop in H. destruct H as [H|H];
    apply andb_prop in H; destruct H as [Hc Hm].
  - rewrite Hc. cbn [andb].
    destruct (str_in "The specified resource name contains invalid characters"
                (message e)); [reflexivity|].
    cbn [orb] in Hm. rewrite Hm. reflexivity.
  - other_code Hc "InvalidResourceName". cbn [andb].
    rewrite Hc, Hm. reflexivity.
Qed.

Lemma cosmos_signature_branch : forall decoded_error table_name,
  cosmos_signature (error_code decoded_error) (message decoded_error) = true ->
  _validate_tablename_error decoded_error table_name
  = _validate_cosmos_tablename table_name.
Proof.
  intros e name H. unfold cosmos_signature in H.
  unfold _validate_tablename_error. cbv zeta.
  repeat (apply orb_prop in H; destruct H as [H|H]);
    apply andb_prop in H; destruct H as [Hc Hm].
  - other_code Hc "InvalidResourceName". other_code Hc "OutOfRangeInput".
    cbn [andb]. rewrite Hc, Hm. reflexivity.
  - other_code Hc "InvalidResourceName". other_code Hc "OutOfRangeInput".
    other_code Hc "InternalServerError".
    cbn [andb]. rewrite Hc, Hm. reflexivity.
  - other_code Hc "InvalidResourceName". other_code Hc "OutOfRangeInput".
    other_code Hc "InternalServerError". other_code Hc "BadRequest".
    cbn [andb]. rewrite Hc, Hm. reflexivity.
  - other_code Hc "InvalidResourceName". other_code Hc "OutOfRangeInput".
    other_code Hc "InternalServerError". other_code Hc "BadRequest".
    other_code Hc "InvalidInput".
    cbn [andb]. rewrite Hc, Hm. reflexivity.
Qed.

(** X7.  Each of the three storage signatures (the sentence about
    invalid characters, the same sentence with the service's misspelling
    "specifed", and the sentence about the length, each with its code)
    makes the validator run the storage check: it returns when the table
    name, without a newline that ends it, is a letter followed by 2 to 62
    letters or digits, and raises the storage [ValueError] otherwise. *)
Theorem storage_signatures_run_storage_check :
  forall decoded_error table_name,
    storage_signature (error_code decoded_error) (message decoded_error)
    = true ->
    _validate_tablename_error decoded_error table_name
    = if storage_grammar (chomp table_name) then Ok tt
      else Raise (ValueError storage_message).
Proof.
  intros e name H.
  rewrite (storage_signature_branch e name H).
  apply validate_storage_grammar.
Qed.

Lemma storage_signatures_witness :
  storage_signature (error_code typo_error) (message typo_error) = true
  /\ _validate_tablename_error typo_error "1table"
     = Raise (ValueError storage_message)
  /\ _validate_tablename_error typo_error "table1" = Ok tt.
Proof.
  split; [reflexivity|].
  split;
    rewrite (storage_signatures_run_storage_check typo_error _ eq_refl);
    reflexivity.
Defined.

(** X8.  Each of the four Cosmos signatures (InternalServerError,
    BadRequest, InvalidInput and Unauthorized with their sentences) makes
    the validator run the Cosmos check: it returns when the table name, as
    it is or without a newline that ends it, is 0 to 253 characters other
    than / \ # ? followed by one such character that is not a space, and
    raises the Cosmos [ValueError] otherwise. *)
Theorem cosmos_signatures_run_cosmos_check :
  forall decoded_error table_name,
    cosmos_signature (error_code decoded_error) (message decoded_error)
    = true ->
    _validate_tablename_error decoded_error table_name
    = if cosmos_grammar table_name || cosmos_grammar (chomp table_name)
      then Ok tt
      else Raise (ValueError cosmos_message).
Proof.
  intros e name H.
  rewrite (cosmos_signature_branch e name H).
  apply validate_cosmos_grammar.
Qed.

Lemma cosmos_signatures_witness :
  cosmos_signature (error_code cosmos_bad_request)
    (message cosmos_bad_request) = true
  /\ _validate_tablename_error cosmos_bad_request "my table "
     = Raise (ValueError cosmos_message)
  /\ _validate_tablename_error cosmos_bad_request "my table" = Ok tt.
Proof.
  split; [reflexivity|].
  split;
    rewrite (cosmos_signatures_run_cosmos_check cosmos_bad_request _
               eq_refl);
    reflexivity.
Defined.

(** X9.  An error whose code is none of the six codes the validator
    tests for is never turned into a naming failure: the validator
    returns for every table name. *)
Theorem validator_ignores_other_codes :
  forall decoded_error table_name,
    forallb (fun s => negb (code_is (error_code decoded_error) s))
      signature_codes = true ->
    _validate_tablename_error decoded_error table_name = Ok tt.
Proof.
  intros e name H. cbn [forallb signature_codes] in H.
  repeat (apply andb_prop in H; let A := fresh "A" in destruct H as [A H];
          apply negb_true_iff in A).
  unfold _validate_tablename_error. cbv zeta.
  rewrite A, A0, A1, A2, A3, A4. reflexivity.
Qed.

Lemma validator_ignores_other_codes_witness :
  _validate_tablename_error not_found_error "a/b" = Ok tt.
Proof.
  apply (validator_ignores_other_codes not_found_error "a/b").
  reflexivity.
Defined.

(** X10.  Whatever the decoded error and the table name, the validator
    returns or raises one of its two [ValueError]s; it raises nothing
    else. *)
Theorem validator_raises_only_naming_errors :
  forall decoded_error table_name,
    _validate_tablename_error decoded_error table_name = Ok tt
    \/ _validate_tablename_error decoded_error table_name
       = Raise (ValueError storage_message)
    \/ _validate_tablename_error decoded_error table_name
       = Raise (ValueError cosmos_message).
Proof.
  intros e name.
  assert (S : _validate_storage_tablename name = Ok tt
              \/ _validate_storage_tablename name
                 = Raise (ValueError storage_message)).
  { unfold _validate_storage_tablename.
    destruct (re_match _STORAGE_VALID_TABLE name); auto. }
  assert (C : _validate_cosmos_tablename name = Ok tt
              \/ _validate_cosmos_tablename name
                 = Raise (ValueError cosmos_message)).
  { unfold _validate_cosmos_tablename.
    destruct (re_match _COSMOS_VALID_TABLE name); auto. }
  unfold _validate_tablename_error. cbv zeta.
  repeat match goal with
         | |- context [if ?b then _ else _] => destruct b
         end; tauto.
Qed.

(** ** The two checks on a table name *)

(** X11.  The storage check accepts exactly the names that, without a
    newline that ends them, are a letter followed by 2 to 62 letters or
    digits.  An accepted name starts with a letter and has 3 to 64
    characters; a name of fewer than 3 characters, the empty name
    included, is refused. *)
Theorem storage_check_accepts :
  forall table_name,
    (_validate_storage_tablename table_name = Ok tt
     <-> storage_grammar (chomp table_name) = true)
    /\ (_validate_storage_tablename table_name = Ok tt ->
        (3 <= String.length table_name <= 64)%nat
        /\ exists c rest,
            table_name = String c rest /\ is_letter c = true)
    /\ ((String.length table_name < 3)%nat ->
        _validate_storage_tablename table_name
        = Raise (ValueError storage_message)).
Proof.
  intros name. rewrite validate_storage_grammar.
  assert (B : storage_grammar (chomp name) = true ->
              (3 <= String.length name <= 64)%nat
              /\ exists c rest, name = String c rest /\ is_letter c = true).
  { intros G. pose proof (storage_grammar_alnum _ G) as [_ L].
    destruct (chomp name) as [|c r] eqn:E; [discriminate G|].
    unfold storage_grammar in G.
    apply andb_prop in G. destruct G as [G _].
    apply andb_prop in G. destruct G as [G _].
    apply andb_prop in G. destruct G as [G _].
    cbn [String.length] in L.
    destruct (chomp_cases name) as [N|N]; rewrite E in N; rewrite N.
    - cbn [String.length]. split; [lia|]. eauto.
    - rewrite length_append. unfold nl. cbn [String.length append].
      split; [lia|]. eauto. }
  split; [|split].
  - destruct (storage_grammar (chomp name)); split; congruence.
  - destruct (storage_grammar (chomp name)); [auto | discriminate].
  - intros L. destruct (storage_grammar (chomp name)) eqn:G; [|reflexivity].
    destruct (B eq_refl) as [L' _]. lia.
Qed.

Lemma cosmos_grammar_chars : forall s,
  cosmos_grammar s = true -> all_chars cosmos_char s = true.
Proof.
  intros s G. apply cosmos_grammar_spec in G.
  destruct G as [front [l [-> [_ [H1 H2]]]]].
  rewrite all_chars_app, H1. cbn [all_chars andb].
  unfold cosmos_last_char in H2. apply andb_prop in H2.
  destruct H2 as [_ H2]. now rewrite H2.
Qed.

(** X12.  The Cosmos check accepts exactly the names that, as they are
    or without a newline that ends them, follow the Cosmos grammar.  It
    refuses the empty name, every name that contains / \ # or ?, every
    name that ends with a space, and every name of 256 characters or
    more. *)
Theorem cosmos_check_accepts :
  forall table_name,
    (_validate_cosmos_tablename table_name = Ok tt
     <-> cosmos_grammar table_name = true
         \/ cosmos_grammar (chomp table_name) = true)
    /\ (table_name = "" \/ all_chars cosmos_char table_name = false
        \/ (exists s, table_name = s ++ " ")
        \/ (256 <= String.length table_name)%nat ->
        _validate_cosmos_tablename table_name
        = Raise (ValueError cosmos_message)).
Proof.
  intros name. split.
  - rewrite validate_cosmos_grammar, <- orb_true_iff.
    destruct (cosmos_grammar name || cosmos_grammar (chomp name));
      split; congruence.
  - intros H. unfold _validate_cosmos_tablename.
    destruct (re_match _COSMOS_VALID_TABLE name) eqn:M; [exfalso|reflexivity].
    destruct H as [-> | [H | [[s ->] | H]]].
    + discriminate M.
    + rewrite cosmos_match in M. apply orb_prop in M.
      assert (A : all_chars cosmos_char (chomp name) = true ->
                  all_chars cosmos_char name = true).
      { intros A. destruct (chomp_cases name) as [N|N]; rewrite N; auto.
        rewrite all_chars_app, A. reflexivity. }
      destruct M as [M|M]; apply cosmos_grammar_chars in M;
        [|apply A in M]; congruence.
    + rewrite cosmos_match in M.
      assert (G : cosmos_grammar (s ++ " ") = false).
      { unfold cosmos_grammar. rewrite split_last_app.
        cbn. now rewrite andb_false_r. }
      rewrite G in M. cbn [orb] in M.
      destruct (chomp_cases (s ++ " ")) as [N|N].
      * rewrite <- N in M. congruence.
      * apply (f_equal split_last) in N.
        change nl with (String (ascii_of_nat 10) "") in N.
        rewrite !split_last_app in N. discriminate N.
    + assert (L : (255 <= String.length name)%nat) by lia.
      destruct (cosmos_long_name name L M) as [E _]. lia.
Qed.

(** ** Writing an index and reading it back *)

Lemma string_of_uint_digits : forall d,
  all_chars is_digit (NilEmpty.string_of_uint d) = true.
Proof. induction d; simpl; auto. Qed.

Lemma scan_uint_acc : forall d acc count,
  scan_digits (Zpos acc) count (NilEmpty.string_of_uint d)
  = Some (Zpos (Pos.of_uint_acc d acc),
          (count + String.length (NilEmpty.string_of_uint d))%nat, "").
Proof.
  induction d; intros acc count;
    cbn [NilEmpty.string_of_uint Pos.of_uint_acc scan_digits String.length];
    try (replace (count + 0)%nat with count by lia; reflexivity);
    match goal with
    | |- (if is_digit ?c then _ else _) = _ => change (is_digit c) with true
    end; cbv iota;
    match goal with
    | |- scan_digits (_ + digit_value ?c)%Z _ _ = _ =>
        let v := eval vm_compute in (digit_value c) in
        change (digit_value c) with v
    end;
    match goal with
    | |- scan_digits ?a _ _ = Some (Zpos (Pos.of_uint_acc _ ?b), _, _) =>
        replace a with (Zpos b) by lia
    end;
    rewrite IHd; do 3 f_equal; lia.
Qed.

Lemma scan_uint : forall d count,
  scan_digits 0 count (NilEmpty.string_of_uint d)
  = Some (Z.of_N (Pos.of_uint d),
          (count + String.length (NilEmpty.string_of_uint d))%nat, "").
Proof.
  induction d; intros count;
    cbn [NilEmpty.string_of_uint Pos.of_uint scan_digits String.length];
    try (replace (count + 0)%nat with count by lia; reflexivity);
    match goal with
    | |- (if is_digit ?c then _ else _) = _ => change (is_digit c) with true
    end; cbv iota.
  - change (0 * 10 + digit_value "0")%Z with 0%Z.
    rewrite IHd. do 3 f_equal. lia.
  - change (0 * 10 + digit_value "1")%Z with 1%Z.
    rewrite scan_uint_acc. do 3 f_equal. lia.
  - change (0 * 10 + digit_value "2")%Z with 2%Z.
    rewrite scan_uint_acc. do 3 f_equal. lia.
  - change (0 * 10 + digit_value "3")%Z with 3%Z.
    rewrite scan_uint_acc. do 3 f_equal. lia.
  - change (0 * 10 + digit_value "4")%Z with 4%Z.
    rewrite scan_uint_acc. do 3 f_equal. lia.
  - change (0 * 10 + digit_value "5")%Z with 5%Z.
    rewrite scan_uint_acc. do 3 f_equal. lia.
  - change (0 * 10 + digit_value "6")%Z with 6%Z.
    rewrite scan_uint_acc. do 3 f_equal. lia.
  - change (0 * 10 + digit_value "7")%Z with 7%Z.
    rewrite scan_uint_acc. do 3 f_equal. lia.
  - change (0 * 10 + digit_value "8")%Z with 8%Z.
    rewrite scan_uint_acc. do 3 f_equal. lia.
  - change (0 * 10 + digit_value "9")%Z with 9%Z.
    rewrite scan_uint_acc. do 3 f_equal. lia.
Qed.

(** [int] of the decimal text of a positive number. *)
Lemma int_digits_positive : forall lim p,
  (String.length (NilEmpty.string_of_uint (Pos.to_uint p)) <= 640)%nat ->
  int_digits lim (NilEmpty.string_of_uint (Pos.to_uint p)) = Ok (Zpos p).
Proof.
  intros lim p L.
  pose proof (scan_uint (Pos.to_uint p) 0) as S.
  rewrite DecimalPos.Unsigned.of_to in S. cbn [Z.of_N] in S.
  pose proof (string_of_uint_digits (Pos.to_uint p)) as D.
  destruct (NilEmpty.string_of_uint (Pos.to_uint p)) as [|c r] eqn:E.
  - simpl in S. discriminate S.
  - cbn [all_chars] in D. apply andb_prop in D. destruct D as [Dc _].
    unfold int_digits. rewrite Dc, S.
    replace (640 <? 0 + String.length (String c r))%nat with false
      by (symmetry; apply Nat.ltb_ge; lia).
    reflexivity.
Qed.

Lemma py_int_string_of_Z : forall lim n,
  (String.length (string_of_Z n) <= 640)%nat ->
  py_int lim (string_of_Z n) = Ok n.
Proof.
  intros lim [|p|p] L; [reflexivity| |];
    unfold string_of_Z in *; cbn [Z.to_int NilEmpty.string_of_int] in *.
  - pose proof (int_digits_positive lim p L) as I.
    pose proof (string_of_uint_digits (Pos.to_uint p)) as D.
    destruct (NilEmpty.string_of_uint (Pos.to_uint p)) as [|c r] eqn:E;
      [discriminate I|].
    cbn [all_chars] in D. apply andb_prop in D. destruct D as [Dc _].
    pose proof (digit_not_space c Dc) as Hs.
    pose proof (digit_not_sign c Dc) as Hn.
    unfold is_sign in Hn. apply orb_false_iff in Hn. destruct Hn as [Hp Hm].
    unfold py_int. cbn [lstrip]. rewrite Hs, Hp, Hm. exact I.
  - cbn [String.length] in L.
    assert (L' : (String.length (NilEmpty.string_of_uint (Pos.to_uint p))
                  <= 640)%nat) by lia.
    unfold py_int. cbn [lstrip].
    change (is_space "-") with false. cbv iota.
    change (nat_of_ascii "-" =? 43)%nat with false.
    change (nat_of_ascii "-" =? 45)%nat with true. cbv iota.
    rewrite (int_digits_positive lim p L'). reflexivity.
Qed.

Lemma before_colon_app : forall a b,
  all_chars not_colon a = true ->
  before_colon (a ++ String ":"%char b) = a.
Proof.
  induction a as [|c a IH]; intros b H; [reflexivity|].
  cbn [all_chars] in H. apply andb_prop in H. destruct H as [Hc Ha].
  cbn [append before_colon]. unfold not_colon in Hc.
  apply negb_true_iff in Hc. rewrite Hc, (IH b Ha). reflexivity.
Qed.

Lemma string_of_Z_no_colon : forall n,
  all_chars not_colon (string_of_Z n) = true.
Proof.
  assert (D : forall d, all_chars not_colon (NilEmpty.string_of_uint d) = true)
    by (induction d; simpl; auto).
  intros [|p|p]; unfold string_of_Z;
    cbn [Z.to_int NilEmpty.string_of_int]; [reflexivity | apply D |].
  cbn [all_chars]. rewrite D. reflexivity.
Qed.

(** X13.  An index written in decimal before the first colon of a
    message is read back by [_extract_index]: for every integer [n], of
    either sign, whose decimal text has at most 640 characters, the index
    of the message "<n>:<rest>" is [n], whatever follows the colon. *)
Theorem extract_index_round_trip :
  forall lim n rest,
    (String.length (string_of_Z n) <= 640)%nat ->
    _extract_index lim (string_of_Z n ++ ":" ++ rest) = n.
Proof.
  intros lim n rest L. unfold _extract_index.
  change (string_of_Z n ++ ":" ++ rest)
    with (string_of_Z n ++ String ":"%char rest).
  rewrite (before_colon_app _ _ (string_of_Z_no_colon n)).
  now rewrite (py_int_string_of_Z lim n L).
Qed.

Lemma extract_index_round_trip_witness :
  (String.length (string_of_Z 17) <= 640)%nat
  /\ _extract_index 4300 ("17:The specified entity already exists.") = 17%Z.
Proof.
  split; [vm_compute; lia|].
  apply (extract_index_round_trip 4300 17
           "The specified entity already exists.").
  vm_compute; lia.
Defined.

(** ** From the service's message to the naming failure *)

Lemma prefix_app : forall s a b,
  String.prefix s a = true -> String.prefix s (a ++ b) = true.
Proof.
  induction s as [|c s IH]; intros a b H.
  - destruct a; [destruct b|]; reflexivity.
  - destruct a as [|d a]; [discriminate H|].
    cbn [append]. cbn [String.prefix] in *.
    destruct (ascii_dec c d); [now apply IH | discriminate H].
Qed.

Lemma str_in_app : forall s a b,
  str_in s a = true -> str_in s (a ++ b) = true.
Proof.
  intros s a b. induction a as [|c a IH]; intros H.
  - cbn [str_in] in H. rewrite orb_false_r in H.
    destruct s; [|discriminate H].
    destruct b; reflexivity.
  - cbn [append str_in] in *. apply orb_prop in H. destruct H as [H|H].
    + change (String c (a ++ b)) with (String c a ++ b).
      now rewrite (prefix_app s (String c a) b H).
    + rewrite (IH H). apply orb_true_r.
Qed.

Lemma code_is_classify : forall c code t s,
  classify (JStr c) None = Ok (code, t) ->
  code_is code s = String.eqb c s.
Proof.
  intros c code t s H. destruct (is_wire_code c) eqn:W.
  - destruct (call_wire_code c W) as [m [<- _]].
    destruct (classify_member m) as [t' [H' _]].
    rewrite H' in H. now injection H as <- _.
  - rewrite (classify_unknown c W) in H. now injection H as <- _.
Qed.

Lemma orb_impl : forall a b a' b',
  (a = true -> a' = true) -> (b = true -> b' = true) ->
  a || b = true -> a' || b' = true.
Proof.
  intros a b a' b' Ha Hb H. apply orb_prop in H. apply orb_true_iff.
  destruct H; [left | right]; auto.
Qed.

Lemma andb_impl : forall a b a' b',
  (a = true -> a' = true) -> (b = true -> b' = true) ->
  a && b = true -> a' && b' = true.
Proof.
  intros a b a' b' Ha Hb H. apply andb_prop in H. destruct H.
  apply andb_true_intro. auto.
Qed.

Ltac monotone :=
  repeat first [ apply orb_impl | apply andb_impl | apply str_in_app
               | exact (fun h => h) ].

Lemma storage_signature_decorated : forall c code t m x,
  classify (JStr c) None = Ok (code, t) ->
  storage_signature (Raw (JStr c)) m = true ->
  storage_signature code (m ++ x) = true.
Proof.
  intros c code t m x Hct. unfold storage_signature.
  rewrite !(code_is_classify c code t _ Hct). cbn [code_is eq_str].
  monotone.
Qed.

Lemma cosmos_signature_decorated : forall c code t m x,
  classify (JStr c) None = Ok (code, t) ->
  cosmos_signature (Raw (JStr c)) m = true ->
  cosmos_signature code (m ++ x) = true.
Proof.
  intros c code t m x Hct. unfold cosmos_signature.
  rewrite !(code_is_classify c code t _ Hct). cbn [code_is eq_str].
  monotone.
Qed.

(** X14.  From the service's answer to the naming failure.  Take an
    error whose response decodes to a code string and a string message
    [m], and a non-empty table name.  The text in which the signature is
    looked up is the text of the OData v4 error when the exception
    constructor finds one in the body, and [m] otherwise.  If code and
    that text show one of the storage signatures, [_process_table_error]
    raises the storage [ValueError] when the name fails the storage check
    and the decoded error when it passes; if they show one of the Cosmos
    signatures, the same holds with the Cosmos check.  The lines appended
    to [m] do not hide the signature. *)
Theorem process_table_error_validates_name :
  forall py_repr lim storage_error r error_message st c m table_name,
    se_response storage_error = Some (Some r) ->
    se_message storage_error = Some error_message ->
    decode_body r error_message = Ok st ->
    d_error_code st = JStr c ->
    d_error_message st = JStr m ->
    table_name <> "" ->
    exists err,
      _decode_error py_repr lim (Some r) error_message None (mkKwargs None)
      = Ok err
      /\ (storage_signature (Raw (JStr c))
            (match odata_v4_error r with Some text => text | None => m end)
          = true ->
          _process_table_error py_repr lim storage_error (Some table_name)
          = if storage_grammar (chomp table_name)
            then raise_decoded_error err
            else raise_exn (ValueError storage_message))
      /\ (cosmos_signature (Raw (JStr c))
            (match odata_v4_error r with Some text => text | None => m end)
          = true ->
          _process_table_error py_repr lim storage_error (Some table_name)
          = if cosmos_grammar table_name || cosmos_grammar (chomp table_name)
            then raise_decoded_error err
            else raise_exn (ValueError cosmos_message)).
Proof.
  intros py_repr lim se r msg st c m name Hr Hmsg Hst Hc Hm Hn.
  destruct (classify_total (d_error_code st) None) as [code [t Hct]].
  destruct (decode_error_str py_repr lim r msg None (mkKwargs None) st m
              code t Hst Hm Hct) as [err [E [_ [Hcode [_ Hmessage]]]]].
  exists err. split; [exact E|].
  rewrite (process_decoded py_repr lim se (Some r) msg err (Some name)
             Hr Hmsg E).
  apply String.eqb_neq in Hn. rewrite Hn.
  rewrite Hc in Hct. split; intros S.
  - rewrite storage_signature_branch, validate_storage_grammar.
    + destruct (storage_grammar (chomp name)); reflexivity.
    + rewrite Hcode, Hmessage.
      destruct (odata_v4_error r) as [text|].
      * rewrite <- (append_empty_r text).
        now apply storage_signature_decorated with c t.
      * now apply storage_signature_decorated with c t.
  - rewrite cosmos_signature_branch, validate_cosmos_grammar.
    + destruct (cosmos_grammar name || cosmos_grammar (chomp name));
        reflexivity.
    + rewrite Hcode, Hmessage.
      destruct (odata_v4_error r) as [text|].
      * rewrite <- (append_empty_r text).
        now apply cosmos_signature_decorated with c t.
      * now apply cosmos_signature_decorated with c t.
Qed.

Lemma process_table_error_validates_name_witness :
  exists err,
    _decode_error repr0 4300 (Some out_of_range_response)
      (JStr "Bad Request") None (mkKwargs None) = Ok err
    /\ _process_table_error repr0 4300
         (storage_error_of out_of_range_response) (Some "ab")
       = raise_exn (ValueError storage_message)
    /\ _process_table_error repr0 4300
         (storage_error_of unauthorized_response) (Some "a?b")
       = raise_exn (ValueError cosmos_message).
Proof.
  destruct (process_table_error_validates_name repr0 4300
              (storage_error_of out_of_range_response)
              out_of_range_response (JStr "Bad Request")
              (mkDecoded (JStr "OutOfRangeInput")
                 (JStr "The specified resource name length is not within the permissible limits.")
                 [])
              "OutOfRangeInput"
              "The specified resource name length is not within the permissible limits."
              "ab" eq_refl eq_refl eq_refl eq_refl eq_refl)
    as [err [E [S _]]]; [discriminate|].
  destruct (process_table_error_validates_name repr0 4300
              (storage_error_of unauthorized_response)
              unauthorized_response (JStr "Bad Request")
              (mkDecoded (JStr "Unauthorized")
                 (JStr "The input authorization token can't serve the request.")
                 [])
              "Unauthorized"
              "The input authorization token can't serve the request."
              "a?b" eq_refl eq_refl eq_refl eq_refl eq_refl)
    as [err' [_ [_ C]]]; [discriminate|].
  exists err. split; [exact E|]. split.
  - exact (S eq_refl).
  - exact (C eq_refl).
Defined.

(** ** The fields of a JSON envelope *)

(** X15.  For a JSON object body whose [odata.error] envelope is an
    object: an envelope that holds nothing but [code] and [message], the
    latter with a [value], decodes to exactly that code and that value
    with no extra data, in whatever order the two fields come; any other
    field in the envelope makes [_decode_error] raise instead of
    returning. *)
Theorem json_envelope_fields :
  forall py_repr lim header reason odata fields envelope error_message,
    assoc "odata.error" fields = Some (JObj envelope) ->
    (forall c mobj v,
        forallb (fun kv => String.eqb (fst kv) "code"
                           || String.eqb (fst kv) "message") envelope
        = true ->
        assoc "code" envelope = Some c ->
        assoc "message" envelope = Some mobj ->
        getitem mobj "value" = Ok v ->
        decode_body
          (mkResponse header reason odata (Ok (Json (JObj fields))))
          error_message
        = Ok (mkDecoded c v []))
    /\ (forall k error_type kw,
           In k (map fst envelope) ->
           k <> "code" -> k <> "message" ->
           exists e,
             _decode_error py_repr lim
               (Some (mkResponse header reason odata
                        (Ok (Json (JObj fields)))))
               error_message error_type kw = Raise e).
Proof.
  intros py_repr lim header reason odata fields envelope msg Hf. split.
  - intros c mobj v Hall Hc Hm Hv.
    exact (json_code_and_message header reason odata fields envelope c
             mobj v msg
             Hf Hall Hc Hm Hv).
  - intros k ty kw HIn Hc Hm.
    exact (json_sibling_never_decoded py_repr lim header reason odata
             fields
             envelope k msg ty kw Hf HIn Hc Hm).
Qed.

Lemma json_envelope_fields_witness :
  decode_body json_plain JNull
  = Ok (mkDecoded (JStr "TableNotFound")
          (JStr "The table specified does not exist.") [])
  /\ exists e,
      _decode_error repr0 4300 (Some json_with_sibling) JNull None no_kwargs
      = Raise e.
Proof.
  split.
  - exact (proj1 (json_envelope_fields repr0 4300 None None None
                    [("odata.error",
                      JObj [("code", JStr "TableNotFound");
                            ("message",
                             odata_message
                               "The table specified does not exist.")])]
                    [("code", JStr "TableNotFound");
                     ("message",
                      odata_message "The table specified does not exist.")]
                    JNull eq_refl)
             (JStr "TableNotFound")
             (odata_message "The table specified does not exist.")
             (JStr "The table specified does not exist.")
             eq_refl eq_refl eq_refl eq_refl).
  - refine (proj2 (json_envelope_fields repr0 4300 None None None
                     [("odata.error",
                       JObj [("code", JStr "TableNotFound");
                             ("message",
                              odata_message
                                "The table specified does not exist.");
                             ("innererror", JStr "trace")])]
                     [("code", JStr "TableNotFound");
                      ("message",
                       odata_message "The table specified does not exist.");
                      ("innererror", JStr "trace")]
                     JNull eq_refl)
              "innererror" None no_kwargs _ _ _).
    + simpl. tauto.
    + discriminate.
    + discriminate.
Defined.

(** ** When [_process_table_error] gives the original error back *)

(** X16.  [_process_table_error] raises the error it was given exactly
    when an attribute is missing or decoding raises [AttributeError]: the
    error has no [response] or no [message] attribute, or
    [_decode_error], called with the two attributes, raises
    [AttributeError] (as it does when [response] is [None]).  In every
    other case it raises something else. *)
Theorem original_error_is_reraised_iff :
  forall py_repr lim storage_error table_name,
    _process_table_error py_repr lim storage_error table_name
    = raise_storage_error storage_error
    <-> se_response storage_error = None
        \/ se_message storage_error = None
        \/ exists r m,
            se_response storage_error = Some r
            /\ se_message storage_error = Some m
            /\ _decode_error py_repr lim r m None (mkKwargs None)
               = Raise AttributeError.
Proof.
  intros py_repr lim [r m] name. unfold _process_table_error.
  cbn [se_response se_message].
  destruct r as [r|]; cbn [getattr bind]; [|split; auto].
  destruct m as [m|]; cbn [getattr bind]; [|split; auto].
  destruct (_decode_error py_repr lim r m None (mkKwargs None))
    as [err|e] eqn:E.
  - split.
    + intros H. exfalso.
      destruct name as [name|];
        [destruct (negb (String.eqb name ""));
         [destruct (_validate_tablename_error err name)|]|];
        discriminate H.
    + intros [H|[H|[r' [m' [Hr [Hm H]]]]]]; try discriminate.
      injection Hr as <-. injection Hm as <-. congruence.
  - split.
    + intros H. right. right. exists r, m.
      destruct e; try discriminate H. auto.
    + intros [H|[H|[r' [m' [Hr [Hm H]]]]]]; try discriminate.
      injection Hr as <-. injection Hm as <-.
      rewrite E in H. injection H as ->. reflexivity.
Qed.

(** X17.  An empty table name is never validated: once the error is
    decoded, [_process_table_error] raises the decoded error when the
    table name is missing or empty, even when the error shows a naming
    signature, although both checks refuse the empty name. *)
Theorem empty_table_name_is_not_validated :
  forall py_repr lim storage_error r m err table_name,
    se_response storage_error = Some r ->
    se_message storage_error = Some m ->
    _decode_error py_repr lim r m None (mkKwargs None) = Ok err ->
    table_name = None \/ table_name = Some "" ->
    _process_table_error py_repr lim storage_error table_name
    = raise_decoded_error err
    /\ _validate_storage_tablename "" = Raise (ValueError storage_message)
    /\ _validate_cosmos_tablename "" = Raise (ValueError cosmos_message).
Proof.
  intros py_repr lim se r m err name Hr Hm E Hn.
  split; [|split; reflexivity].
  rewrite (process_decoded py_repr lim se r m err name Hr Hm E).
  destruct Hn as [-> | ->]; reflexivity.
Qed.

Lemma empty_table_name_witness :
  _decode_error repr0 4300 (Some cosmos_response) (JStr "Bad Request") None
    (mkKwargs None) = Ok cosmos_bad_request
  /\ _process_table_error repr0 4300 (storage_error_of cosmos_response)
       (Some "")
     = raise_decoded_error cosmos_bad_request.
Proof.
  split; [reflexivity|].
  apply (empty_table_name_is_not_validated repr0 4300
           (storage_error_of cosmos_response) (Some cosmos_response)
           (JStr "Bad Request") cosmos_bad_request (Some ""));
    try reflexivity.
  now right.
Defined.
